(** * NGSLogPrep: framing, opening and rotation of PSO2 log files

    A shallow embedding of [NGSLogPrep.py].  The object's private attributes
    become a record whose fields are optional where Python leaves them unset,
    the file system and the UTC calendar become a [world] indexed by seconds,
    and the two endless loops ([__open_log_file], [__log_monitor]) take a
    budget and answer [Spin] when the budget is used up while they still run. *)

From Stdlib Require Import ZArith NArith List String Ascii Lia Bool.
From Stdlib.Strings Require Import Byte.
From stdpp Require Import base option list strings gmap.
Import ListNotations.

(** ** Python values *)

(** A Python [str] is a sequence of Unicode code points. *)
Definition pystr : Type := list N.

(** The [str] whose characters are the ASCII characters of [s]. *)
Definition text (s : string) : pystr := map N_of_ascii (list_ascii_of_string s).

#[global] Instance byte_eq_dec : EqDecision byte := Byte.byte_eq_dec.

(** [b[-n:]] and [b[:-n]] for a positive [n]; both saturate on short inputs,
    as Python slices do. *)
Definition last_bytes (n : nat) (b : list byte) : list byte :=
  drop (length b - n) b.

Definition strip_last (n : nat) (b : list byte) : list byte :=
  take (length b - n) b.

(** [max(first, *rest, key=key)]: the first element whose key is maximal. *)
Definition py_max {A : Type} (key : A -> Z) (first : A) (rest : list A) : A :=
  foldl (fun best x => if (key best <? key x)%Z then x else best) first rest.

(** ** [bytes.decode('UTF-16-BE')] with strict error handling *)

Module Utf16.

Definition code_unit (hi lo : byte) : N :=
  (256 * Byte.to_N hi + Byte.to_N lo)%N.

Definition is_high_surrogate (u : N) : bool :=
  ((0xD800 <=? u) && (u <=? 0xDBFF))%N.

Definition is_low_surrogate (u : N) : bool :=
  ((0xDC00 <=? u) && (u <=? 0xDFFF))%N.

Definition join_surrogates (h l : N) : N :=
  (0x10000 + (h - 0xD800) * 0x400 + (l - 0xDC00))%N.

(** [None] stands for [UnicodeDecodeError]: an odd number of bytes
    (truncated data), a high surrogate at the end of the data or followed
    by something else than a low surrogate, or a lone low surrogate. *)
Fixpoint decode (bs : list byte) : option pystr :=
  match bs with
  | [] => Some []
  | [_] => None
  | hi :: lo :: rest =>
      let u := code_unit hi lo in
      if is_high_surrogate u then
        match rest with
        | hi2 :: lo2 :: rest' =>
            let u2 := code_unit hi2 lo2 in
            if is_low_surrogate u2
            then cons (join_surrogates u u2) <$> decode rest'
            else None
        | _ => None
        end
      else if is_low_surrogate u then None
      else cons u <$> decode rest
  end.

End Utf16.

(** ** [os.path] *)

(** The two [os.path] functions the program calls.  The program only runs on
    Windows ([ctypes.windll]), where [os.path] is [ntpath]; the development is
    stated over the interface and instantiated with [ntpath] below. *)
Class OsPath := {
  path_join : string -> string -> string;
  path_dirname : string -> string;
}.

Module Ntpath.

Definition is_sep (c : ascii) : bool :=
  Ascii.eqb c "\" || Ascii.eqb c "/".

Fixpoint take_while {A : Type} (p : A -> bool) (l : list A) : list A :=
  match l with
  | x :: l' => if p x then x :: take_while p l' else []
  | [] => []
  end.

Fixpoint drop_while {A : Type} (p : A -> bool) (l : list A) : list A :=
  match l with
  | x :: l' => if p x then drop_while p l' else l
  | [] => []
  end.

Definition lower (c : ascii) : ascii :=
  let n := nat_of_ascii c in
  if (65 <=? n)%nat && (n <=? 90)%nat then ascii_of_nat (n + 32) else c.

Definition lower_string (s : string) : string :=
  string_of_list_ascii (map lower (list_ascii_of_string s)).

(** [ntpath.splitdrive] for paths with a drive letter or no drive at all
    (UNC prefixes are not told apart from ordinary directories). *)
Definition splitdrive (p : string) : string * string :=
  match p with
  | String c (String ":" rest) => (String c (String ":" EmptyString), rest)
  | _ => (EmptyString, p)
  end.

(** [ntpath.split]: cut at the last separator, strip the separators that
    end the head unless the head consists of separators only. *)
Definition split (p : string) : string * string :=
  let '(d, p) := splitdrive p in
  let l := list_ascii_of_string p in
  let tail := rev (take_while (fun c => negb (is_sep c)) (rev l)) in
  let head := take (length l - length tail) l in
  let stripped := rev (drop_while is_sep (rev head)) in
  let head := match stripped with [] => head | _ => stripped end in
  (d +:+ string_of_list_ascii head, string_of_list_ascii tail).

Definition dirname (p : string) : string := fst (split p).

Definition first_is_sep (p : string) : bool :=
  match p with String c _ => is_sep c | EmptyString => false end.

Definition last_is_sep (p : string) : bool :=
  match rev (list_ascii_of_string p) with c :: _ => is_sep c | [] => false end.

Definition last_is_colon (p : string) : bool :=
  match rev (list_ascii_of_string p) with c :: _ => Ascii.eqb c ":" | [] => false end.

Definition is_empty (p : string) : bool :=
  match p with EmptyString => true | _ => false end.

(** [ntpath.join] with two arguments. *)
Definition join (path p : string) : string :=
  let '(result_drive, result_path) := splitdrive path in
  let '(p_drive, p_path) := splitdrive p in
  let '(result_drive, result_path) :=
    if first_is_sep p_path then
      ((if negb (is_empty p_drive) || is_empty result_drive
        then p_drive else result_drive), p_path)
    else if negb (is_empty p_drive) && negb (String.eqb p_drive result_drive)
            && negb (String.eqb (lower_string p_drive) (lower_string result_drive))
    then (p_drive, p_path)
    else
      let result_drive :=
        if negb (is_empty p_drive) && negb (String.eqb p_drive result_drive)
        then p_drive else result_drive in
      let result_path :=
        if negb (is_empty result_path) && negb (last_is_sep result_path)
        then result_path +:+ "\" else result_path in
      (result_drive, result_path +:+ p_path) in
  if negb (is_empty result_path) && negb (first_is_sep result_path)
     && negb (is_empty result_drive) && negb (last_is_colon result_drive)
  then result_drive +:+ "\" +:+ result_path
  else result_drive +:+ result_path.

#[global] Instance ntpath : OsPath :=
  {| path_join := join; path_dirname := dirname |}.

End Ntpath.

(** ** The object, the runtime and the world *)

(** A file: its bytes and its modification time.  [os.path.getmtime] returns
    a number of seconds; only the order of two such numbers is ever used. *)
Record file := { content : list byte; mtime : Z }.

(** An open file object: the name it was opened under and its read cursor. *)
Record handle := { name : string; pos : nat }.

(** The instance attributes.  [__init__] assigns [__is_path] and [__ba]
    first; the other attributes exist only once they were assigned. *)
Record NGSLogPrep := {
  __is_path : bool;
  __ba : list byte;
  __f : option handle;
  __log_path : option string;
  __log_type : option string;
  __log_date : option string;
}.

Definition set_ba (b : list byte) (self : NGSLogPrep) : NGSLogPrep :=
  {| __is_path := __is_path self; __ba := b; __f := __f self;
     __log_path := __log_path self; __log_type := __log_type self;
     __log_date := __log_date self |}.

Definition set_f (h : handle) (self : NGSLogPrep) : NGSLogPrep :=
  {| __is_path := __is_path self; __ba := __ba self; __f := Some h;
     __log_path := __log_path self; __log_type := __log_type self;
     __log_date := __log_date self |}.

Definition set_log_path (p : string) (self : NGSLogPrep) : NGSLogPrep :=
  {| __is_path := __is_path self; __ba := __ba self; __f := __f self;
     __log_path := Some p; __log_type := __log_type self;
     __log_date := __log_date self |}.

Definition set_log_type (c : string) (self : NGSLogPrep) : NGSLogPrep :=
  {| __is_path := __is_path self; __ba := __ba self; __f := __f self;
     __log_path := __log_path self; __log_type := Some c;
     __log_date := __log_date self |}.

Definition set_log_date (d : string) (self : NGSLogPrep) : NGSLogPrep :=
  {| __is_path := __is_path self; __ba := __ba self; __f := __f self;
     __log_path := __log_path self; __log_type := __log_type self;
     __log_date := Some d |}.

(** What [logging.error] was called with: the file-not-found message carries
    the log type, the decode message carries the buffer. *)
Inductive log_record :=
  | FileNotFoundLogged (log_type : string)
  | DecodeErrorLogged (buffer : list byte).

(** The part of the process that is not the object: the time in seconds and
    the records handed to [logging.error], oldest first. *)
Record runtime := { clock : nat; logged : list log_record }.

Definition sleep (secs : nat) (rt : runtime) : runtime :=
  {| clock := clock rt + secs; logged := logged rt |}.

Definition logging_error (r : log_record) (rt : runtime) : runtime :=
  {| clock := clock rt; logged := logged rt ++ [r] |}.

(** What the program observes of its surroundings, second by second. *)
Record world := {
  files : nat -> gmap string file;
  utc_date : nat -> string;
  documents : string;
  glob : nat -> string -> list string;
}.

(** The exceptions that leave a method: [ValueError] carries the Documents
    folder of its message, [FileNotFoundError] the path, [AttributeError] the
    name of the attribute that was read before it was assigned. *)
Inductive exn :=
  | ValueError (folder : string)
  | FileNotFoundError (path : string)
  | AttributeError (attr : string).

(** A call returns, raises, or is still looping when its budget ends. *)
Inductive outcome (A : Type) :=
  | Ret (a : A) (rt : runtime)
  | Raise (e : exn) (rt : runtime)
  | Spin (rt : runtime).
Arguments Ret {A} a rt.
Arguments Raise {A} e rt.
Arguments Spin {A} rt.

Definition bind {A B : Type} (m : outcome A) (k : A -> runtime -> outcome B)
  : outcome B :=
  match m with
  | Ret a rt => k a rt
  | Raise e rt => Raise e rt
  | Spin rt => Spin rt
  end.

Notation "'let!' ( x , rt ) := m 'in' k" := (bind m (fun x rt => k))
  (at level 10, x name, rt name, m at level 100, k at level 200).

(** Reading an attribute that may not have been assigned. *)
Definition getattr {A : Type} (attr : string) (v : option A) (rt : runtime)
  : outcome A :=
  match v with
  | Some a => Ret a rt
  | None => Raise (AttributeError attr) rt
  end.

Definition runtime_of {A : Type} (m : outcome A) : runtime :=
  match m with Ret _ rt | Raise _ rt | Spin rt => rt end.

(** ** The methods *)

(** The record terminator [b'\x00\r\x00\n']. *)
Definition terminator : list byte := [x00; x0d; x00; x0a].

(** The value of [__ba] that [__open_log_file] installs. *)
Definition sentinel : list byte := [x00].

Section Methods.

Context `{OsPath}.
Variable w : world.

(** [os.path.exists] and [os.path.getmtime] at the time of the call. *)
Definition path_exists (p : string) (rt : runtime) : bool :=
  bool_decide (is_Some (files w (clock rt) !! p)).

Definition getmtime (p : string) (rt : runtime) : outcome Z :=
  match files w (clock rt) !! p with
  | Some fl => Ret (mtime fl) rt
  | None => Raise (FileNotFoundError p) rt
  end.

(** The loop of [__open_log_file]; [error_fnf] is its local flag.  Each
    failed attempt ends in [sleep(1)]; [retries] bounds how many attempts
    may follow the first one.  [open(path, 'rb')] succeeds when the file
    system has a file under [path] and raises [FileNotFoundError] when it
    has none; the other errors of [open] (a name that no file can have, a
    directory, missing rights), which the method does not catch, are not
    part of the model. *)
Fixpoint open_loop (retries : nat) (path : string) (error_fnf : bool)
    (self : NGSLogPrep) (rt : runtime) : outcome NGSLogPrep :=
  match files w (clock rt) !! path with
  | Some fl =>
      let cursor :=
        if negb (__is_path self) then length (content fl)
        else Nat.min 2 (length (content fl)) in
      Ret (set_ba sentinel (set_f {| name := path; pos := cursor |} self)) rt
  | None =>
      let! (_, rt) :=
        (if negb error_fnf
         then let! (c, rt) := getattr "__log_type" (__log_type self) rt in
              Ret tt (logging_error (FileNotFoundLogged c) rt)
         else Ret tt rt) in
      let rt := sleep 1 rt in
      match retries with
      | O => Spin rt
      | S retries => open_loop retries path true self rt
      end
  end.

Definition __open_log_file (retries : nat) (path : string)
    (self : NGSLogPrep) (rt : runtime) : outcome NGSLogPrep :=
  open_loop retries path false self rt.

(** [max(glob(...), key=os.path.getmtime)]: [ValueError] when nothing
    matched, the error of [getmtime] when a match has no entry. *)
Definition newest (found : list string) (rt : runtime) : outcome string :=
  match mapM (fun q => pair q <$> (mtime <$> files w (clock rt) !! q)) found with
  | Some (x :: xs) => Ret (fst (py_max snd x xs)) rt
  | Some [] => Raise (ValueError (documents w)) rt
  | None =>
      Raise (FileNotFoundError
               (default EmptyString
                  (head (filter (fun q => files w (clock rt) !! q = None) found))))
            rt
  end.

(** [__init__].  In live mode the last statement starts the thread that
    runs [__log_monitor]; the thread is the separate definition below and
    the constructor returns without waiting for it. *)
Definition __init__ (retries : nat) (target : string) (is_path : bool)
    (rt : runtime) : outcome NGSLogPrep :=
  let self := {| __is_path := is_path; __ba := []; __f := None;
                 __log_path := None; __log_type := None;
                 __log_date := None |} in
  if negb is_path then
    let buf := documents w in
    let! (newest_file, rt) :=
      newest (glob w (clock rt)
                (path_join buf "SEGA\PHANTASYSTARONLINE2*\log*\*")) rt in
    let log_path := path_dirname newest_file in
    let self := set_log_path log_path self in
    let self := set_log_type target self in
    let log_date := utc_date w (clock rt) in
    let self := set_log_date log_date self in
    let target := log_path +:+ "\" +:+ target +:+ log_date +:+ "_00.txt" in
    let! (self, rt) := __open_log_file retries target self rt in
    Ret (set_log_path (path_dirname log_path) self) rt
  else
    if path_exists target rt then __open_log_file retries target self rt
    else Raise (FileNotFoundError target) rt.

(** The candidate path of one variant directory ([log] or [log_ngs]). *)
Definition variant_path (root variant log_type log_date : string) : string :=
  path_join root (variant +:+ "\" +:+ log_type +:+ log_date +:+ "_00.txt").

(** First half of an iteration of [__log_monitor]: the player may have
    moved between the base game and NGS. *)
Definition check_variant (retries : nat) (base_path ngs_path : string)
    (self : NGSLogPrep) (rt : runtime) : outcome NGSLogPrep :=
  if path_exists base_path rt && path_exists ngs_path rt then
    let! (base_time, rt) := getmtime base_path rt in
    let! (ngs_time, rt) := getmtime ngs_path rt in
    let last_path :=
      fst (py_max snd (base_path, base_time) [(ngs_path, ngs_time)]) in
    let! (h, rt) := getattr "__f" (__f self) rt in
    if bool_decide (last_path <> name h)
    then __open_log_file retries last_path self rt
    else Ret self rt
  else Ret self rt.

(** Second half: UTC midnight starts a new file.  Strings are compared as
    Python compares them, character by character. *)
Definition check_midnight (retries : nat) (paths : string * string)
    (self : NGSLogPrep) (rt : runtime)
    : outcome (NGSLogPrep * (string * string)) :=
  let current_date := utc_date w (clock rt) in
  let! (log_date, rt) := getattr "__log_date" (__log_date self) rt in
  if String.ltb log_date current_date then
    let self := set_log_date current_date self in
    let! (h, rt) := getattr "__f" (__f self) rt in
    let! (log_type, rt) := getattr "__log_type" (__log_type self) rt in
    let! (self, rt) :=
      __open_log_file retries
        (path_join (path_dirname (name h))
                   (log_type +:+ current_date +:+ "_00.txt")) self rt in
    let! (root, rt) := getattr "__log_path" (__log_path self) rt in
    Ret (self, (variant_path root "log" log_type current_date,
                variant_path root "log_ngs" log_type current_date)) rt
  else Ret (self, paths) rt.

(** One iteration of the loop of [__log_monitor], [sleep(15)] included. *)
Definition monitor_tick (retries : nat) (paths : string * string)
    (self : NGSLogPrep) (rt : runtime)
    : outcome (NGSLogPrep * (string * string)) :=
  let! (self, rt) := check_variant retries (fst paths) (snd paths) self rt in
  let! (r, rt) := check_midnight retries paths self rt in
  Ret r (sleep 15 rt).

Fixpoint monitor_loop (ticks retries : nat) (paths : string * string)
    (self : NGSLogPrep) (rt : runtime) : outcome NGSLogPrep :=
  match ticks with
  | O => Spin rt
  | S ticks =>
      let! (r, rt) := monitor_tick retries paths self rt in
      monitor_loop ticks retries (snd r) (fst r) rt
  end.

(** [__log_monitor] never returns: it raises or it is still running after
    [ticks] iterations. *)
Definition __log_monitor (ticks retries : nat) (self : NGSLogPrep)
    (rt : runtime) : outcome NGSLogPrep :=
  let! (root, rt) := getattr "__log_path" (__log_path self) rt in
  let! (log_type, rt) := getattr "__log_type" (__log_type self) rt in
  let! (log_date, rt) := getattr "__log_date" (__log_date self) rt in
  monitor_loop ticks retries
    (variant_path root "log" log_type log_date,
     variant_path root "log_ngs" log_type log_date) self rt.

(** The bytes that successive [read(1)] calls return before [b'']. *)
Definition pending (h : handle) (rt : runtime) : list byte :=
  match files w (clock rt) !! name h with
  | Some fl => drop (pos h) (content fl)
  | None => []
  end.

Definition advance (self : NGSLogPrep) : NGSLogPrep :=
  match __f self with
  | Some h => set_f {| name := name h; pos := S (pos h) |} self
  | None => self
  end.

(** The body of the [while] loop of [get_lines] once [read(1)] returned
    [byte]. *)
Definition frame (byte : byte)
    (s : NGSLogPrep * runtime * list pystr) : NGSLogPrep * runtime * list pystr :=
  let '(self, rt, log_lines) := s in
  let self := set_ba (__ba self ++ [byte]) self in
  if bool_decide (last_bytes 4 (__ba self) = terminator) then
    match Utf16.decode (strip_last 4 (__ba self)) with
    | None =>
        (set_ba [] self, logging_error (DecodeErrorLogged (__ba self)) rt,
         log_lines)
    | Some log_line => (set_ba [] self, rt, log_lines ++ [log_line])
    end
  else (self, rt, log_lines).

Fixpoint read_loop (bytes : list byte)
    (s : NGSLogPrep * runtime * list pystr) : NGSLogPrep * runtime * list pystr :=
  match bytes with
  | [] => s
  | byte :: bytes =>
      let '(self, rt, log_lines) := s in
      read_loop bytes (frame byte (advance self, rt, log_lines))
  end.

Definition get_lines (self : NGSLogPrep) (rt : runtime)
    : outcome (list pystr * NGSLogPrep) :=
  let! (h, rt) := getattr "__f" (__f self) rt in
  let '(self, rt, log_lines) := read_loop (pending h rt) (self, rt, []) in
  Ret (log_lines, self) rt.

(** The [log_path] property. *)
Definition log_path (self : NGSLogPrep) (rt : runtime) : outcome string :=
  getattr "__log_path" (__log_path self) rt.

End Methods.

(** ** Records and terminators *)

(** No terminator is completed while the bytes of [record] are appended, one
    by one, to [buffer]: [record] ends before the first terminator. *)
Fixpoint unterminated (buffer record : list byte) : bool :=
  match record with
  | [] => true
  | byte :: record =>
      negb (bool_decide (last_bytes 4 (buffer ++ [byte]) = terminator))
      && unterminated (buffer ++ [byte]) record
  end.

(** The object after [n] calls of [read(1)] that returned a byte. *)
Definition advanced (n : nat) (self : NGSLogPrep) : NGSLogPrep :=
  Nat.iter n advance self.

(** The object that [__open_log_file] leaves when it found [fl] under
    [path]: the cursor is at the end of the file in live mode and behind the
    two bytes of the byte order mark otherwise, the buffer is the sentinel. *)
Definition opened (path : string) (fl : file) (self : NGSLogPrep) : NGSLogPrep :=
  set_ba sentinel
    (set_f {| name := path;
              pos := if negb (__is_path self) then length (content fl)
                     else Nat.min 2 (length (content fl)) |} self).

(** The warning of [__open_log_file] after [n] failed attempts. *)
Definition warning (n : nat) (log_type : option string) : list log_record :=
  match n, log_type with
  | S _, Some c => [FileNotFoundLogged c]
  | _, _ => []
  end.

(** What a call returned, if it returned. *)
Definition returned {A : Type} (m : outcome A) : option A :=
  match m with Ret a _ => Some a | _ => None end.

(** [NGSLogPrep(path, is_path=True).get_lines()], as the [__main__] block of
    the module does once. *)
Definition read_once (w : world) (path : string) (rt : runtime)
  : outcome (list pystr * NGSLogPrep) :=
  let! (self, rt) := __init__ w 0 path true rt in
  get_lines w self rt.

(** The layout the game writes (UTF-16 low byte first, after the mark
    [FF FE]), for text whose characters are below U+0100: each character
    byte is followed by a zero byte, and a line ends in [0D 00 0A 00]. *)
Definition low_byte_first (chars : list byte) : list byte :=
  flat_map (fun c => [c; x00]) chars.

Definition high_byte_first (chars : list byte) : list byte :=
  flat_map (fun c => [x00; c]) chars.

Definition line_end_low_byte_first : list byte := [x0d; x00; x0a; x00].

(** ** Streams of records, candidate paths and the demonstration loop *)

(** The terminator occurs nowhere in [b]. *)
Definition terminator_free (b : list byte) : Prop :=
  forall before after, b <> before ++ terminator ++ after.

(** A carriage return is nowhere followed by a line feed in [line]. *)
Definition crlf_free (line : pystr) : Prop :=
  forall before after, line <> before ++ [13%N; 10%N] ++ after.

(** The same for character bytes, as a test. *)
Fixpoint no_crlf (chars : list byte) : bool :=
  match chars with
  | c :: rest =>
      match rest with
      | c' :: _ =>
          negb (bool_decide (c = x0d) && bool_decide (c' = x0a)) && no_crlf rest
      | [] => true
      end
  | [] => true
  end.

(** A whole log file as the game writes it: the mark [FF FE], then every
    line low byte first with its line end. *)
Definition low_byte_first_file (lines : list (list byte)) : list byte :=
  [xff; xfe]
    ++ concat (map (fun chars => low_byte_first chars ++ line_end_low_byte_first)
                   lines).

(** The records of a stream, each followed by its terminator. *)
Definition stream (records : list (list byte)) : list byte :=
  concat (map (fun r => r ++ terminator) records).

(** The log records for the buffers that do not decode; the record holds
    the buffer with its terminator, as [get_lines] logs it. *)
Definition decode_errors (buffers : list (list byte)) : list log_record :=
  (fun b => DecodeErrorLogged (b ++ terminator))
    <$> filter (fun b => Utf16.decode b = None) buffers.

(** The two candidate paths that [__log_monitor] computes from the
    attributes of the object (lines 128-129 and 144-145). *)
Definition candidates `{OsPath} (self : NGSLogPrep) : option (string * string) :=
  match __log_path self, __log_type self, __log_date self with
  | Some root, Some log_type, Some log_date =>
      Some (variant_path root "log" log_type log_date,
            variant_path root "log_ngs" log_type log_date)
  | _, _, _ => None
  end.

(** The block under [if __name__ == '__main__']: the object is built from
    the fixed path, then every round sleeps one second and prints the lines
    of one [get_lines] call.  The loop has no exit; the result is what was
    printed during [rounds] rounds and how the run stands. *)
Definition main_target : string := "C:\Users\PureFallen\Desktop\message.txt".

Fixpoint main_loop (w : world) (rounds : nat) (log : NGSLogPrep) (rt : runtime)
    (printed : list pystr) : list pystr * outcome unit :=
  match rounds with
  | O => (printed, Spin rt)
  | S rounds =>
      match get_lines w log (sleep 1 rt) with
      | Ret (log_lines, log) rt => main_loop w rounds log rt (printed ++ log_lines)
      | Raise e rt => (printed, Raise e rt)
      | Spin rt => (printed, Spin rt)
      end
  end.

Definition main (w : world) (rounds retries : nat) (rt : runtime)
  : list pystr * outcome unit :=
  match __init__ w retries main_target true rt with
  | Ret log rt => main_loop w rounds log rt []
  | Raise e rt => ([], Raise e rt)
  | Spin rt => ([], Spin rt)
  end.

(** ** Concrete files and worlds *)

Module Examples.

Import Ntpath.

Definition rt0 : runtime := {| clock := 0; logged := [] |}.

(** A world whose file system and date never change. *)
Definition still (fs : gmap string file) (date : string) : world :=
  {| files := fun _ => fs; utc_date := fun _ => date;
     documents := "C:\Users\u\Documents"; glob := fun _ _ => [] |}.

(** The object as [__init__] has it before anything is opened, when it
    was given a path. *)
Definition by_path : NGSLogPrep :=
  {| __is_path := true; __ba := []; __f := None; __log_path := None;
     __log_type := None; __log_date := None |}.

Definition message_txt : string := "C:\Users\u\Desktop\message.txt".

Definition on_desktop (bytes : list byte) : world :=
  still {[ message_txt := {| content := bytes; mtime := 0 |} ]} "20260101".

(** [FF FE], then "hi" and "bye" high byte first, each with a terminator. *)
Definition hi_bye_be : list byte :=
  [xff; xfe] ++ [x00; x68; x00; x69] ++ terminator
    ++ [x00; x62; x00; x79; x00; x65] ++ terminator.

(** The same two lines as the game writes them: low byte first. *)
Definition hi_bye_le : list byte :=
  [xff; xfe] ++ [x68; x00; x69; x00] ++ [x0d; x00; x0a; x00]
    ++ [x62; x00; x79; x00; x65; x00] ++ [x0d; x00; x0a; x00].

(** [FF FE], "h" low byte first, and a line end of which the last byte has
    not been written yet. *)
Definition h_le_cut : list byte := [xff; xfe; x68; x00; x0d; x00; x0a].

(** An object that follows a live log and has a partial record in its
    buffer. *)
Definition tailing (path : string) (cursor : nat) (buffer : list byte)
  : NGSLogPrep :=
  {| __is_path := false; __ba := buffer;
     __f := Some {| name := path; pos := cursor |};
     __log_path := Some "C:\Users\u\Documents\SEGA\PHANTASYSTARONLINE2";
     __log_type := Some "ChatLog"; __log_date := Some "20260101" |}.

(** A world in which the file [fl] appears under [path] at second [at_]. *)
Definition appearing (at_ : nat) (path : string) (fl : file) : world :=
  {| files := fun t => if (t <? at_)%nat then ∅ else {[ path := fl ]};
     utc_date := fun _ => "20260101";
     documents := "C:\Users\u\Documents"; glob := fun _ _ => [] |}.

Definition chat_log : string :=
  "C:\Users\u\Documents\SEGA\PHANTASYSTARONLINE2\log\ChatLog20260101_00.txt".

Definition install : string :=
  "C:\Users\u\Documents\SEGA\PHANTASYSTARONLINE2".

Definition base_0101 : string :=
  "C:\Users\u\Documents\SEGA\PHANTASYSTARONLINE2\log\ChatLog20260101_00.txt".
Definition ngs_0101 : string :=
  "C:\Users\u\Documents\SEGA\PHANTASYSTARONLINE2\log_ngs\ChatLog20260101_00.txt".
Definition base_0102 : string :=
  "C:\Users\u\Documents\SEGA\PHANTASYSTARONLINE2\log\ChatLog20260102_00.txt".
Definition ngs_0102 : string :=
  "C:\Users\u\Documents\SEGA\PHANTASYSTARONLINE2\log_ngs\ChatLog20260102_00.txt".
Definition old_0101 : string :=
  "C:\Users\u\Documents\SEGA\PHANTASYSTARONLINE2\log_old\ChatLog20260101_00.txt".

(** The second of January: the files of both days exist in both variant
    directories, and the player was in NGS last. *)
Definition after_midnight : world :=
  still {[ base_0101 := {| content := [x00]; mtime := 100 |};
           ngs_0101 := {| content := [x00]; mtime := 200 |};
           base_0102 := {| content := [x00]; mtime := 300 |};
           ngs_0102 := {| content := [x00]; mtime := 301 |} ]} "20260102".

(** An installation with a third directory that matches [log*] and holds
    the newest file; of the two candidates only the NGS one exists. *)
Definition with_log_old : world :=
  {| files := fun _ =>
       {[ old_0101 := {| content := [x00]; mtime := 300 |};
          ngs_0101 := {| content := [x00]; mtime := 200 |} ]};
     utc_date := fun _ => "20260101";
     documents := "C:\Users\u\Documents";
     glob := fun _ _ => [ngs_0101; old_0101] |}.

(** A lone low surrogate [DC 00] and its terminator, then "ok". *)
Definition bad_then_ok : list byte :=
  [xdc; x00] ++ terminator ++ [x00; x6f; x00; x6b] ++ terminator.

(** "a", a line feed the player typed, "b", and the terminator. *)
Definition a_lf_b : list byte :=
  [x00; x61] ++ [x00; x0a] ++ [x00; x62] ++ terminator.

(** [FF FE], then "hi" high byte first and a terminator. *)
Definition hi_be : list byte :=
  [xff; xfe] ++ [x00; x68; x00; x69] ++ terminator.

(** What follows the sentinel when "a" was written low byte first, then a
    lone low surrogate, then "ok", each with a terminator. *)
Definition three_records : list byte :=
  [x61] ++ terminator ++ [xdc; x00] ++ terminator
    ++ [x00; x6f; x00; x6b] ++ terminator.

(** A live log in which the line "hi" is cut in the middle of a character
    at second 0 and complete at second 1. *)
Definition growing : world :=
  {| files := fun t =>
       {[ chat_log :=
            if (t <? 1)%nat then {| content := [x68; x00; x69]; mtime := 1 |}
            else {| content := [x68; x00; x69; x00; x0d; x00; x0a; x00];
                    mtime := 2 |} ]};
     utc_date := fun _ => "20260101";
     documents := "C:\Users\u\Documents"; glob := fun _ _ => [] |}.

(** The second of January when the player has gone back to the base game:
    the file of the new day exists in [log] only. *)
Definition new_day_in_base : world :=
  still {[ base_0101 := {| content := [x00]; mtime := 100 |};
           ngs_0101 := {| content := [x00]; mtime := 200 |};
           base_0102 := {| content := [x00]; mtime := 300 |} ]} "20260102".

(** The file of the demonstration loop: the line "hi" is cut in the middle
    of a character until second 2 and complete from then on. *)
Definition main_world : world :=
  {| files := fun t =>
       {[ main_target :=
            if (t <? 2)%nat
            then {| content := [xff; xfe; x68; x00; x69]; mtime := 1 |}
            else {| content := [xff; xfe; x68; x00; x69; x00; x0d; x00; x0a; x00];
                    mtime := 2 |} ]};
     utc_date := fun _ => "20260101";
     documents := "C:\Users\u\Documents"; glob := fun _ _ => [] |}.

End Examples.

(** ** Lemmas on slices and on the decoder *)

Lemma last_bytes_strip (n : nat) (b : list byte) :
  strip_last n b ++ last_bytes n b = b.
Proof. unfold strip_last, last_bytes. apply take_drop. Qed.

Lemma last_bytes_app_terminator (b : list byte) :
  last_bytes 4 (b ++ terminator) = terminator.
Proof.
  unfold last_bytes. rewrite length_app. simpl.
  replace (length b + 4 - 4) with (length b) by lia.
  now rewrite drop_app_length.
Qed.

Lemma strip_last_app_terminator (b : list byte) :
  strip_last 4 (b ++ terminator) = b.
Proof.
  unfold strip_last. rewrite length_app. simpl.
  replace (length b + 4 - 4) with (length b) by lia.
  now rewrite take_app_length.
Qed.

Lemma terminator_last (b : list byte) (x : byte) :
  last_bytes 4 (b ++ [x]) = terminator -> x = x0a.
Proof.
  intros E. pose proof (last_bytes_strip 4 (b ++ [x])) as S.
  rewrite E in S. change terminator with ([x00; x0d; x00] ++ [x0a]) in S.
  rewrite app_assoc in S. apply app_inj_tail in S. now destruct S.
Qed.

Lemma terminator_suffix (b : list byte) :
  last_bytes 4 b = terminator <-> exists pre, b = pre ++ terminator.
Proof.
  split.
  - intros E. exists (strip_last 4 b). rewrite <- E. symmetry.
    apply last_bytes_strip.
  - intros [pre ->]. apply last_bytes_app_terminator.
Qed.

Lemma unterminated_app (b r1 r2 : list byte) :
  unterminated b (r1 ++ r2) = unterminated b r1 && unterminated (b ++ r1) r2.
Proof.
  revert b. induction r1 as [|x r1 IH]; intros b; simpl.
  - now rewrite app_nil_r.
  - rewrite IH, <- app_assoc. simpl. now rewrite andb_assoc.
Qed.

(** The first three bytes of a terminator complete nothing. *)
Lemma unterminated_terminator_prefix (b : list byte) :
  unterminated b [x00; x0d; x00] = true.
Proof.
  simpl. rewrite !andb_true_r.
  repeat (apply andb_true_intro; split); apply negb_true_iff, bool_decide_eq_false;
    intros E; apply terminator_last in E; discriminate.
Qed.

Lemma decode_app (a b : list byte) (t : pystr) :
  Utf16.decode a = Some t ->
  Utf16.decode (a ++ b) = (fun u => t ++ u) <$> Utf16.decode b.
Proof.
  remember (length a) as n eqn:En. revert a t En.
  induction n as [n IH] using lt_wf_ind. intros a t En D.
  destruct a as [|hi [|lo rest]].
  - injection D as <-. simpl. now destruct (Utf16.decode b).
  - discriminate.
  - simpl in D |- *.
    destruct (Utf16.is_high_surrogate (Utf16.code_unit hi lo)).
    + destruct rest as [|hi2 [|lo2 rest]]; try discriminate. simpl.
      destruct (Utf16.is_low_surrogate (Utf16.code_unit hi2 lo2)); try discriminate.
      destruct (Utf16.decode rest) as [t'|] eqn:D'; try discriminate.
      injection D as <-.
      rewrite (IH (length rest)) with (t := t'); simpl in *; try lia; auto.
      now destruct (Utf16.decode b).
    + destruct (Utf16.is_low_surrogate (Utf16.code_unit hi lo)); try discriminate.
      destruct (Utf16.decode rest) as [t'|] eqn:D'; try discriminate.
      injection D as <-.
      rewrite (IH (length rest)) with (t := t'); simpl in *; try lia; auto.
      now destruct (Utf16.decode b).
Qed.

(** ** Lemmas on the loop of [get_lines] *)

Lemma set_ba_set_ba (a b : list byte) (self : NGSLogPrep) :
  set_ba a (set_ba b self) = set_ba a self.
Proof. reflexivity. Qed.

Lemma advance_set_ba (b : list byte) (self : NGSLogPrep) :
  advance (set_ba b self) = set_ba b (advance self).
Proof. unfold advance. simpl. now destruct (__f self). Qed.

Lemma advanced_set_ba (n : nat) (b : list byte) (self : NGSLogPrep) :
  advanced n (set_ba b self) = set_ba b (advanced n self).
Proof.
  unfold advanced. induction n as [|n IH]; simpl; [reflexivity|].
  now rewrite IH, advance_set_ba.
Qed.

Lemma advanced_ba (n : nat) (self : NGSLogPrep) :
  __ba (advanced n self) = __ba self.
Proof.
  unfold advanced. induction n as [|n IH]; simpl; [reflexivity|].
  unfold advance at 1. now destruct (__f (Nat.iter n advance self)).
Qed.

Lemma advanced_succ (n : nat) (self : NGSLogPrep) :
  advanced n (advance self) = advanced (S n) self.
Proof. unfold advanced. now rewrite <- Nat.iter_succ_r. Qed.

Lemma advanced_add (n m : nat) (self : NGSLogPrep) :
  advanced m (advanced n self) = advanced (n + m) self.
Proof. unfold advanced. rewrite Nat.add_comm. now rewrite Nat.iter_add. Qed.

Lemma read_loop_app (a b : list byte) (s : NGSLogPrep * runtime * list pystr) :
  read_loop (a ++ b) s = read_loop b (read_loop a s).
Proof.
  revert s. induction a as [|x a IH]; intros [[self rt] ls]; simpl; [reflexivity|].
  apply IH.
Qed.

(** A byte that completes no terminator is only appended. *)
Lemma frame_unterminated (byte : byte) (self : NGSLogPrep) (rt : runtime)
    (ls : list pystr) :
  last_bytes 4 (__ba self ++ [byte]) <> terminator ->
  frame byte (self, rt, ls) = (set_ba (__ba self ++ [byte]) self, rt, ls).
Proof.
  intros N. unfold frame. simpl. now rewrite bool_decide_eq_false_2.
Qed.

(** A byte that completes a terminator empties the buffer, whether the
    record decodes or not. *)
Lemma frame_terminated (byte : byte) (self : NGSLogPrep) (rt : runtime)
    (ls : list pystr) :
  last_bytes 4 (__ba self ++ [byte]) = terminator ->
  frame byte (self, rt, ls) =
    match Utf16.decode (strip_last 4 (__ba self ++ [byte])) with
    | Some log_line => (set_ba [] self, rt, ls ++ [log_line])
    | None =>
        (set_ba [] self,
         logging_error (DecodeErrorLogged (__ba self ++ [byte])) rt, ls)
    end.
Proof.
  intros E. unfold frame. simpl. rewrite bool_decide_eq_true_2 by exact E.
  now destruct (Utf16.decode _).
Qed.

Lemma read_loop_unterminated (r : list byte) (self : NGSLogPrep) (rt : runtime)
    (ls : list pystr) :
  unterminated (__ba self) r = true ->
  read_loop r (self, rt, ls) =
    (set_ba (__ba self ++ r) (advanced (length r) self), rt, ls).
Proof.
  revert self. induction r as [|x r IH]; intros self Q.
  - simpl. rewrite app_nil_r. now destruct self.
  - simpl in Q. apply andb_true_iff in Q as [Q1 Q2].
    apply negb_true_iff, bool_decide_eq_false in Q1.
    assert (B : __ba (advance self) = __ba self) by apply (advanced_ba 1).
    cbn [read_loop]. rewrite frame_unterminated by (now rewrite B).
    rewrite B, IH by exact Q2. cbn [__ba set_ba].
    rewrite <- app_assoc. cbn [app length].
    now rewrite advanced_set_ba, set_ba_set_ba, advanced_succ.
Qed.

(** Reading a whole record and its terminator. *)
Lemma read_loop_record (r : list byte) (self : NGSLogPrep) (rt : runtime)
    (ls : list pystr) :
  unterminated (__ba self) r = true ->
  read_loop (r ++ terminator) (self, rt, ls) =
    match Utf16.decode (__ba self ++ r) with
    | Some log_line =>
        (set_ba [] (advanced (length r + 4) self), rt, ls ++ [log_line])
    | None =>
        (set_ba [] (advanced (length r + 4) self),
         logging_error (DecodeErrorLogged (__ba self ++ r ++ terminator)) rt, ls)
    end.
Proof.
  intros Q.
  assert (Q' : unterminated (__ba self) (r ++ [x00; x0d; x00]) = true).
  { rewrite unterminated_app, Q. apply unterminated_terminator_prefix. }
  change terminator with ([x00; x0d; x00] ++ [x0a]) at 1.
  rewrite app_assoc, read_loop_app, read_loop_unterminated by exact Q'.
  cbn [read_loop]. rewrite advance_set_ba.
  assert (E : (__ba self ++ r ++ [x00; x0d; x00]) ++ [x0a]
              = (__ba self ++ r) ++ terminator).
  { now rewrite <- !app_assoc. }
  rewrite frame_terminated; cbn [__ba set_ba]; rewrite E.
  - rewrite strip_last_app_terminator, set_ba_set_ba, <- app_assoc.
    rewrite length_app. cbn [length].
    replace (advance (advanced (length r + 3) self))
      with (advanced (length r + 4) self)
      by (change (advance ?x) with (advanced 1 x); rewrite advanced_add;
          f_equal; lia).
    reflexivity.
  - apply last_bytes_app_terminator.
Qed.

(** ** Why the sentinel: files stored low byte first *)

Lemma sentinel_shifts (chars : list byte) :
  sentinel ++ low_byte_first chars = high_byte_first chars ++ [x00].
Proof.
  induction chars as [|c chars IH]; [reflexivity|].
  change (sentinel ++ low_byte_first (c :: chars))
    with (x00 :: c :: (sentinel ++ low_byte_first chars)).
  now rewrite IH.
Qed.

Lemma decode_high_byte_first (chars : list byte) :
  Utf16.decode (high_byte_first chars) = Some (map Byte.to_N chars).
Proof.
  induction chars as [|c chars IH]; [reflexivity|].
  cbn [high_byte_first flat_map app Utf16.decode map].
  fold (high_byte_first chars). rewrite IH.
  assert (B : (Utf16.code_unit x00 c = Byte.to_N c)%N) by reflexivity.
  pose proof (Byte.to_N_bounded c) as Hc.
  assert (Hh : Utf16.is_high_surrogate (Utf16.code_unit x00 c) = false).
  { rewrite B. unfold Utf16.is_high_surrogate.
    apply andb_false_iff. left. apply N.leb_gt. lia. }
  assert (Hl : Utf16.is_low_surrogate (Utf16.code_unit x00 c) = false).
  { rewrite B. unfold Utf16.is_low_surrogate.
    apply andb_false_iff. left. apply N.leb_gt. lia. }
  now rewrite Hh, Hl, B.
Qed.

(** Read from the sentinel state, a line stored low byte first is emitted as
    its text, and the last byte of its line end is the sentinel of the next
    line. *)
Lemma read_loop_low_byte_first (chars : list byte) (self : NGSLogPrep)
    (rt : runtime) (ls : list pystr) :
  __ba self = sentinel ->
  unterminated sentinel (low_byte_first chars) = true ->
  read_loop (low_byte_first chars ++ line_end_low_byte_first) (self, rt, ls) =
    (set_ba sentinel (advanced (length (low_byte_first chars) + 4) self), rt,
     ls ++ [map Byte.to_N chars]).
Proof.
  intros S Q.
  change line_end_low_byte_first with ([x0d; x00] ++ [x0a] ++ [x00]).
  assert (E : (sentinel ++ low_byte_first chars ++ [x0d; x00]) ++ [x0a]
              = high_byte_first chars ++ terminator).
  { rewrite (app_assoc sentinel), sentinel_shifts. now rewrite <- !app_assoc. }
  rewrite app_assoc, read_loop_app, read_loop_unterminated; rewrite S.
  - rewrite read_loop_app. cbn [read_loop app]. rewrite advance_set_ba.
    rewrite frame_terminated; cbn [__ba set_ba]; rewrite E;
      [|apply last_bytes_app_terminator].
    rewrite strip_last_app_terminator, decode_high_byte_first.
    rewrite advance_set_ba, frame_unterminated by (cbn; discriminate).
    cbn [__ba set_ba app]. rewrite !set_ba_set_ba, length_app. cbn [length].
    rewrite advance_set_ba, set_ba_set_ba.
    change (advance (advance ?x)) with (advanced 2 x).
    rewrite advanced_add, <- Nat.add_assoc. reflexivity.
  - rewrite unterminated_app, Q. cbn [unterminated andb].
    rewrite !andb_true_r. apply andb_true_intro; split;
      apply negb_true_iff, bool_decide_eq_false; intros E';
      apply terminator_last in E'; discriminate.
Qed.

Lemma get_lines_pending (w : world) (self : NGSLogPrep) (rt : runtime)
    (h : handle) :
  __f self = Some h ->
  get_lines w self rt =
    (let '(self, rt, log_lines) := read_loop (pending w h rt) (self, rt, []) in
     Ret (log_lines, self) rt).
Proof. intros F. unfold get_lines. now rewrite F. Qed.

(** [get_lines] returns on every object that has a file. *)
Lemma get_lines_returns (w : world) (self : NGSLogPrep) (rt : runtime)
    (h : handle) :
  __f self = Some h ->
  exists log_lines self' rt', get_lines w self rt = Ret (log_lines, self') rt'.
Proof.
  intros F. rewrite (get_lines_pending w self rt h F).
  destruct (read_loop _ _) as [[self' rt'] ls]. eauto.
Qed.

(** ** The framing claims *)

(** C1 (as amended).  Opened by path, the file [FF FE] + "hi" + terminator +
    "bye" + terminator, both words high byte first, yields the single line
    "bye": the byte order mark is skipped, but the sentinel byte and the four
    bytes of "hi" are five bytes, which do not decode, so that one decode
    error is logged for the first record.  The two lines "hi" and "bye" are
    returned, in that order, when the file stores them low byte first. *)
Theorem read_once_hi_bye (w : world) (path : string) (rt : runtime) (fl : file) :
  files w (clock rt) !! path = Some fl ->
  (content fl = Examples.hi_bye_be ->
   exists self,
     read_once w path rt =
       Ret ([text "bye"], self)
           (logging_error
              (DecodeErrorLogged ([x00; x00; x68; x00; x69] ++ terminator)) rt)) /\
  (content fl = Examples.hi_bye_le ->
   exists self,
     read_once w path rt = Ret ([text "hi"; text "bye"], self) rt).
Proof.
  intros L. unfold read_once, __init__, path_exists, __open_log_file.
  rewrite L. cbn [negb]. rewrite bool_decide_eq_true_2 by eauto.
  destruct rt as [now lg]. cbn [open_loop clock] in *. rewrite L.
  cbn [bind set_ba set_f __is_path negb].
  split; intros C; rewrite C; unfold get_lines, pending;
    cbn [getattr bind __f name pos clock set_ba set_f]; rewrite L, C;
    vm_compute; eauto.
Qed.

Lemma read_once_hi_bye_witness :
  (exists self,
     read_once (Examples.on_desktop Examples.hi_bye_be) Examples.message_txt
       Examples.rt0 =
       Ret ([text "bye"], self)
           (logging_error
              (DecodeErrorLogged ([x00; x00; x68; x00; x69] ++ terminator))
              Examples.rt0)) /\
  (exists self,
     read_once (Examples.on_desktop Examples.hi_bye_le) Examples.message_txt
       Examples.rt0 = Ret ([text "hi"; text "bye"], self) Examples.rt0).
Proof.
  split.
  - apply (read_once_hi_bye (Examples.on_desktop Examples.hi_bye_be)
             Examples.message_txt Examples.rt0
             {| content := Examples.hi_bye_be; mtime := 0 |}); reflexivity.
  - apply (read_once_hi_bye (Examples.on_desktop Examples.hi_bye_le)
             Examples.message_txt Examples.rt0
             {| content := Examples.hi_bye_le; mtime := 0 |}); reflexivity.
Defined.

(** C1, counterexample: on the file of the claim one call of [get_lines]
    does not return the two lines "hi" and "bye". *)
Lemma read_once_hi_bye_be_counterexample :
  fst <$> returned (read_once (Examples.on_desktop Examples.hi_bye_be)
                      Examples.message_txt Examples.rt0)
  <> Some [text "hi"; text "bye"].
Proof. vm_compute. discriminate. Qed.

(** C2 (as amended).  Right after any (re)open, in either mode, the buffer
    is the one sentinel byte.  Right after a byte completed a terminator the
    buffer is empty, whether a line was emitted or a decode error logged.
    And for every record read byte by byte up to its terminator: when the
    buffer as it stood before, followed by the record, is valid UTF-16BE,
    exactly one line is emitted, the decoded text of those bytes, and the
    buffer is empty afterwards. *)
Theorem buffer_after_open_and_after_line :
  (forall (w : world) retries path self rt self' rt',
     __open_log_file w retries path self rt = Ret self' rt' ->
     __ba self' = sentinel) /\
  (forall byte self rt log_lines,
     last_bytes 4 (__ba self ++ [byte]) = terminator ->
     __ba (frame byte (self, rt, log_lines)).1.1 = []) /\
  (forall record self rt log_lines log_line,
     unterminated (__ba self) record = true ->
     Utf16.decode (__ba self ++ record) = Some log_line ->
     read_loop (record ++ terminator) (self, rt, log_lines) =
       (set_ba [] (advanced (length record + 4) self), rt,
        log_lines ++ [log_line])).
Proof.
  split; [|split].
  - intros w retries path self rt. unfold __open_log_file.
    generalize false. revert rt.
    induction retries as [|retries IH]; intros rt flag self' rt'; cbn [open_loop];
      destruct (files w (clock rt) !! path).
    + now intros [= <- _].
    + destruct flag; cbn [negb]; [discriminate|].
      destruct (__log_type self); discriminate.
    + now intros [= <- _].
    + destruct flag; cbn [negb bind]; [apply IH|].
      destruct (__log_type self); cbn [getattr bind]; [apply IH|discriminate].
  - intros byte self rt ls E. rewrite frame_terminated by exact E.
    now destruct (Utf16.decode _).
  - intros record self rt ls line Q D.
    now rewrite read_loop_record, D by exact Q.
Qed.

Lemma buffer_after_open_and_after_line_witness :
  __ba (opened Examples.message_txt
          {| content := Examples.hi_bye_le; mtime := 0 |} Examples.by_path)
    = sentinel /\
  __ba (frame x0a (set_ba [x00; x68; x00; x0d; x00] Examples.by_path,
                   Examples.rt0, [])).1.1 = [] /\
  read_loop ([x68; x00; x69] ++ terminator)
    (set_ba sentinel Examples.by_path, Examples.rt0, []) =
    (set_ba [] (advanced 7 (set_ba sentinel Examples.by_path)),
     Examples.rt0, [text "hi"]).
Proof.
  destruct buffer_after_open_and_after_line as (O & F & R).
  split; [|split].
  - exact (O (Examples.on_desktop Examples.hi_bye_le) 0 Examples.message_txt
             Examples.by_path Examples.rt0 _ Examples.rt0 eq_refl).
  - exact (F x0a (set_ba [x00; x68; x00; x0d; x00] Examples.by_path)
             Examples.rt0 [] eq_refl).
  - exact (R [x68; x00; x69] (set_ba sentinel Examples.by_path) Examples.rt0 []
             (text "hi") eq_refl eq_refl).
Defined.

(** C2, counterexample.  A file that holds "hi", high byte first, and a
    terminator is opened by path and read: no line is emitted for this valid
    UTF-16BE record and the buffer is left empty.  A file that is read while
    its line end is still being written ("h" low byte first) has its line
    emitted, and the buffer is empty right after, not the sentinel. *)
Lemma buffer_after_line_counterexample :
  (exists self rt,
     read_once (Examples.on_desktop Examples.hi_be) Examples.message_txt
       Examples.rt0 = Ret ([], self) rt /\ __ba self <> sentinel) /\
  (exists self rt,
     read_once (Examples.on_desktop Examples.h_le_cut) Examples.message_txt
       Examples.rt0 = Ret ([text "h"], self) rt /\ __ba self <> sentinel).
Proof.
  split; eexists; eexists; (split; [vm_compute; reflexivity|]);
    cbn; discriminate.
Qed.

(** C5 (as amended).  [get_lines] returns on every object that has a file.
    What is decoded at a terminator is the buffer as it stood before the
    record, followed by the bytes of the record.  When these bytes together
    do not decode as UTF-16BE, [get_lines] logs one decode error that
    carries them, appends no line for them and empties the buffer; the
    record that follows, valid UTF-16BE on its own, is emitted as its
    decoded text. *)
Theorem decode_error_is_logged_and_skipped (w : world) (self : NGSLogPrep)
    (rt : runtime) (h : handle) :
  __f self = Some h ->
  (exists log_lines self' rt', get_lines w self rt = Ret (log_lines, self') rt') /\
  (forall malformed record log_line,
     pending w h rt = malformed ++ terminator ++ record ++ terminator ->
     unterminated (__ba self) malformed = true ->
     Utf16.decode (__ba self ++ malformed) = None ->
     unterminated [] record = true ->
     Utf16.decode record = Some log_line ->
     get_lines w self rt =
       Ret ([log_line],
            set_ba [] (advanced (length malformed + 4 + (length record + 4)) self))
           (logging_error
              (DecodeErrorLogged (__ba self ++ malformed ++ terminator)) rt)).
Proof.
  intros F. split; [now apply get_lines_returns with h|].
  intros bad r line P Qb Db Qr Dr.
  rewrite (get_lines_pending w self rt h F), P.
  rewrite app_assoc, read_loop_app, read_loop_record by exact Qb.
  rewrite Db, read_loop_record by exact Qr. cbn [__ba set_ba app].
  now rewrite Dr, advanced_set_ba, set_ba_set_ba, advanced_add.
Qed.

Lemma decode_error_is_logged_and_skipped_witness :
  get_lines
    (Examples.still {[ "ChatLog.txt" :=
        {| content := Examples.bad_then_ok; mtime := 0 |} ]} "20260101")
    (Examples.tailing "ChatLog.txt" 0 []) Examples.rt0 =
    Ret ([text "ok"], set_ba [] (advanced 14 (Examples.tailing "ChatLog.txt" 0 [])))
        (logging_error (DecodeErrorLogged ([xdc; x00] ++ terminator)) Examples.rt0).
Proof.
  exact (proj2 (decode_error_is_logged_and_skipped
                  (Examples.still {[ "ChatLog.txt" :=
                     {| content := Examples.bad_then_ok; mtime := 0 |} ]} "20260101")
                  (Examples.tailing "ChatLog.txt" 0 []) Examples.rt0
                  {| name := "ChatLog.txt"; pos := 0 |} eq_refl)
               [xdc; x00] [x00; x6f; x00; x6b] (text "ok")
               eq_refl eq_refl eq_refl eq_refl eq_refl).
Defined.

(** C5, counterexample.  The file [FF FE 68 00 0D 00 0A] is opened by path:
    behind the mark, the record in front of the terminator is the one byte
    [68], which is not valid UTF-16BE.  [get_lines] decodes it together with
    the sentinel, returns the line "h" for it and logs nothing. *)
Lemma decode_error_counterexample :
  Utf16.decode [x68] = None /\
  exists self self',
    __init__ (Examples.on_desktop Examples.h_le_cut) 0 Examples.message_txt
      true Examples.rt0 = Ret self Examples.rt0 /\
    __f self = Some {| name := Examples.message_txt; pos := 2 |} /\
    pending (Examples.on_desktop Examples.h_le_cut)
      {| name := Examples.message_txt; pos := 2 |} Examples.rt0
      = [x68] ++ terminator /\
    get_lines (Examples.on_desktop Examples.h_le_cut) self Examples.rt0
      = Ret ([text "h"], self') Examples.rt0.
Proof.
  split; [reflexivity|]. eexists; eexists.
  split; [vm_compute; reflexivity|].
  split; [reflexivity|]. split; vm_compute; reflexivity.
Qed.

(** C8.  A byte after which the bytes read so far do not end in
    [00 0D 00 0A], such as the second byte of a line feed [00 0A] that does
    not follow [00 0D], is only appended to the buffer: no line is emitted
    and nothing is logged.  A record that contains such a line feed is
    emitted, once its terminator arrives, as one line that has the line feed
    character between the text before it and the text after it. *)
Theorem bare_line_feed_stays_in_the_line :
  (forall byte self rt log_lines,
     (forall before, __ba self ++ [byte] <> before ++ [x00; x0d; x00; x0a]) ->
     frame byte (self, rt, log_lines) =
       (set_ba (__ba self ++ [byte]) self, rt, log_lines)) /\
  (forall (w : world) self rt h head rest head_text rest_text,
     __f self = Some h ->
     pending w h rt = head ++ [x00; x0a] ++ rest ++ terminator ->
     unterminated (__ba self) (head ++ [x00; x0a] ++ rest) = true ->
     Utf16.decode (__ba self ++ head) = Some head_text ->
     Utf16.decode rest = Some rest_text ->
     get_lines w self rt =
       Ret ([head_text ++ [10%N] ++ rest_text],
            set_ba [] (advanced (length (head ++ [x00; x0a] ++ rest) + 4) self))
           rt).
Proof.
  split.
  - intros byte self rt ls N. apply frame_unterminated.
    intros E. apply terminator_suffix in E as [before E]. now apply (N before).
  - intros w self rt h r1 r2 t1 t2 F P Q D1 D2.
    rewrite (get_lines_pending w self rt h F), P.
    replace (r1 ++ [x00; x0a] ++ r2 ++ terminator)
      with ((r1 ++ [x00; x0a] ++ r2) ++ terminator)
      by now rewrite <- !app_assoc.
    rewrite read_loop_record by exact Q.
    rewrite app_assoc, (decode_app _ _ t1 D1).
    change (Utf16.decode ([x00; x0a] ++ r2)) with (cons 10%N <$> Utf16.decode r2).
    now rewrite D2.
Qed.

Lemma bare_line_feed_stays_in_the_line_witness :
  frame x0a (Examples.tailing "ChatLog.txt" 3 [x00; x61; x00], Examples.rt0, []) =
    (set_ba [x00; x61; x00; x0a] (Examples.tailing "ChatLog.txt" 3 [x00; x61; x00]),
     Examples.rt0, []) /\
  get_lines
    (Examples.still {[ "ChatLog.txt" :=
        {| content := Examples.a_lf_b; mtime := 0 |} ]} "20260101")
    (Examples.tailing "ChatLog.txt" 0 []) Examples.rt0 =
    Ret ([text "a" ++ [10%N] ++ text "b"],
         set_ba [] (advanced 10 (Examples.tailing "ChatLog.txt" 0 [])))
        Examples.rt0.
Proof.
  destruct bare_line_feed_stays_in_the_line as (F & G).
  split.
  - apply (F x0a (Examples.tailing "ChatLog.txt" 3 [x00; x61; x00])).
    intros before E. apply (f_equal (last_bytes 4)) in E.
    change (before ++ [x00; x0d; x00; x0a]) with (before ++ terminator) in E.
    rewrite last_bytes_app_terminator in E. discriminate E.
  - exact (G (Examples.still {[ "ChatLog.txt" :=
                {| content := Examples.a_lf_b; mtime := 0 |} ]} "20260101")
             (Examples.tailing "ChatLog.txt" 0 []) Examples.rt0
             {| name := "ChatLog.txt"; pos := 0 |}
             [x00; x61] [x00; x62] (text "a") (text "b")
             eq_refl eq_refl eq_refl eq_refl eq_refl).
Defined.

(** ** Lemmas on [__open_log_file] *)

Section Opening.

Variable w : world.
Variable path : string.
Variable self : NGSLogPrep.

Lemma open_loop_found (retries : nat) (flag : bool) (rt : runtime) (fl : file) :
  files w (clock rt) !! path = Some fl ->
  open_loop w retries path flag self rt = Ret (opened path fl self) rt.
Proof. intros L. destruct retries; cbn [open_loop]; now rewrite L. Qed.

(** Whatever [__open_log_file] returns is an [opened] object. *)
Lemma open_loop_returned (retries : nat) (flag : bool) (rt rt' : runtime)
    (self' : NGSLogPrep) :
  open_loop w retries path flag self rt = Ret self' rt' ->
  exists fl, self' = opened path fl self.
Proof.
  revert rt flag.
  induction retries as [|retries IH]; intros rt flag; cbn [open_loop];
    destruct (files w (clock rt) !! path) as [fl|].
  - intros [= <- _]. now exists fl.
  - destruct flag; cbn [negb]; [discriminate|].
    destruct (__log_type self); discriminate.
  - intros [= <- _]. now exists fl.
  - destruct flag; cbn [negb bind]; [apply IH|].
    destruct (__log_type self); cbn [getattr bind]; [apply IH|discriminate].
Qed.

(** After the first failure: [n] more failed attempts, one second apart,
    then the file is there. *)
Lemma open_loop_again (n retries : nat) (rt : runtime) (fl : file) :
  n <= retries ->
  (forall k, k < n -> files w (clock rt + k) !! path = None) ->
  files w (clock rt + n) !! path = Some fl ->
  open_loop w retries path true self rt =
    Ret (opened path fl self) {| clock := clock rt + n; logged := logged rt |}.
Proof.
  revert retries rt. induction n as [|n IH]; intros retries rt Le A P.
  - rewrite Nat.add_0_r in P. rewrite (open_loop_found _ _ _ fl P).
    destruct rt. cbn. now rewrite Nat.add_0_r.
  - destruct retries as [|retries]; [lia|]. cbn [open_loop].
    pose proof (A 0 ltac:(lia)) as A0. rewrite Nat.add_0_r in A0. rewrite A0.
    cbn [negb bind]. rewrite (IH retries (sleep 1 rt) ltac:(lia)).
    + cbn. do 2 f_equal. lia.
    + intros k Hk. cbn. replace (clock rt + 1 + k) with (clock rt + S k) by lia.
      apply A. lia.
    + cbn. now replace (clock rt + 1 + n) with (clock rt + S n) by lia.
Qed.

Lemma open_loop_still_absent (retries : nat) (rt : runtime) :
  (forall k, k <= retries -> files w (clock rt + k) !! path = None) ->
  open_loop w retries path true self rt =
    Spin {| clock := clock rt + S retries; logged := logged rt |}.
Proof.
  revert rt. induction retries as [|retries IH]; intros rt A;
    cbn [open_loop]; pose proof (A 0 ltac:(lia)) as A0;
    rewrite Nat.add_0_r in A0; rewrite A0; cbn [negb bind].
  - reflexivity.
  - rewrite IH.
    + cbn. do 2 f_equal. lia.
    + intros k Hk. cbn. replace (clock rt + 1 + k) with (clock rt + S k) by lia.
      apply A. lia.
Qed.

Lemma open_loop_again_no_raise (retries : nat) (rt rt' : runtime) (e : exn) :
  open_loop w retries path true self rt <> Raise e rt'.
Proof.
  revert rt. induction retries as [|retries IH]; intros rt; cbn [open_loop];
    destruct (files w (clock rt) !! path); cbn [negb bind];
    try discriminate. apply IH.
Qed.

Lemma open_log_file_spins (retries : nat) (rt : runtime) (c : string) :
  __log_type self = Some c ->
  (forall k, k <= retries -> files w (clock rt + k) !! path = None) ->
  __open_log_file w retries path self rt =
    Spin {| clock := clock rt + S retries;
            logged := logged rt ++ [FileNotFoundLogged c] |}.
Proof.
  intros T A. unfold __open_log_file.
  pose proof (A 0 ltac:(lia)) as A0. rewrite Nat.add_0_r in A0.
  destruct retries as [|retries]; cbn [open_loop]; rewrite A0, T;
    cbn [negb getattr bind]; [reflexivity|].
  rewrite open_loop_still_absent.
  - cbn. do 2 f_equal. lia.
  - intros k Hk. cbn. replace (clock rt + 1 + k) with (clock rt + S k) by lia.
    apply A. lia.
Qed.

Lemma open_log_file_opens (n retries : nat) (rt : runtime) (fl : file) :
  n = 0 \/ is_Some (__log_type self) ->
  n <= retries ->
  (forall k, k < n -> files w (clock rt + k) !! path = None) ->
  files w (clock rt + n) !! path = Some fl ->
  __open_log_file w retries path self rt =
    Ret (opened path fl self)
        {| clock := clock rt + n;
           logged := logged rt ++ warning n (__log_type self) |}.
Proof.
  intros Called Le A P. unfold __open_log_file. destruct n as [|n].
  - rewrite Nat.add_0_r in P. rewrite (open_loop_found retries false _ fl P).
    destruct rt. cbn. now rewrite Nat.add_0_r, app_nil_r.
  - pose proof (A 0 ltac:(lia)) as A0. rewrite Nat.add_0_r in A0.
    destruct Called as [?|[c T]]; [lia|].
    destruct retries as [|retries]; [lia|]. cbn [open_loop]. rewrite A0, T.
    cbn [negb getattr bind warning].
    rewrite (open_loop_again n retries _ fl); [| lia | |].
    + cbn. do 2 f_equal. lia.
    + intros k Hk. cbn. replace (clock rt + 1 + k) with (clock rt + S k) by lia.
      apply A. lia.
    + cbn. now replace (clock rt + 1 + n) with (clock rt + S n) by lia.
Qed.

Lemma open_log_file_no_raise (retries : nat) (rt rt' : runtime) (e : exn) :
  is_Some (__log_type self) \/ is_Some (files w (clock rt) !! path) ->
  __open_log_file w retries path self rt <> Raise e rt'.
Proof.
  intros Called. unfold __open_log_file.
  destruct retries as [|retries]; cbn [open_loop];
    destruct (files w (clock rt) !! path) as [fl|] eqn:L; try discriminate;
    (destruct Called as [[c T]|[fl' P']]; [|congruence]);
    rewrite T; cbn [negb getattr bind]; try discriminate.
  apply open_loop_again_no_raise.
Qed.

End Opening.

(** ** The claims on opening and on the properties *)

(** C9.  For every call that the program makes (the log type is assigned, or
    the file exists at the time of the call): as long as the file is absent
    the call is still retrying, one attempt per second, and has logged the
    file-not-found record exactly once; when the file appears after [n]
    failed attempts the call returns the opened object after [n] seconds,
    with that one record logged if [n] is positive and nothing logged
    otherwise; and no exception ever leaves the call. *)
Theorem open_log_file_waits_for_the_file (w : world) (path : string)
    (self : NGSLogPrep) (rt : runtime) :
  is_Some (__log_type self) \/ is_Some (files w (clock rt) !! path) ->
  (forall retries,
     (forall k, k <= retries -> files w (clock rt + k) !! path = None) ->
     exists c, __log_type self = Some c /\
       __open_log_file w retries path self rt =
         Spin {| clock := clock rt + S retries;
                 logged := logged rt ++ [FileNotFoundLogged c] |}) /\
  (forall n retries fl,
     n <= retries ->
     (forall k, k < n -> files w (clock rt + k) !! path = None) ->
     files w (clock rt + n) !! path = Some fl ->
     __open_log_file w retries path self rt =
       Ret (opened path fl self)
           {| clock := clock rt + n;
              logged := logged rt ++ warning n (__log_type self) |}) /\
  (forall retries e rt', __open_log_file w retries path self rt <> Raise e rt').
Proof.
  intros Called. split; [|split].
  - intros retries A. pose proof (A 0 ltac:(lia)) as A0.
    rewrite Nat.add_0_r in A0.
    destruct Called as [[c T]|[fl P]]; [|congruence].
    exists c. split; [exact T|]. now apply open_log_file_spins.
  - intros n retries fl Le A P. apply open_log_file_opens; auto.
    destruct n; [now left|]. pose proof (A 0 ltac:(lia)) as A0.
    rewrite Nat.add_0_r in A0.
    destruct Called as [T|[fl' P']]; [now right|congruence].
  - intros retries e rt'. now apply open_log_file_no_raise.
Qed.

Lemma open_log_file_waits_for_the_file_witness :
  __open_log_file
    (Examples.appearing 2 Examples.chat_log {| content := [x00]; mtime := 7 |})
    1 Examples.chat_log (Examples.tailing "old.txt" 4 [x00; x61]) Examples.rt0 =
    Spin {| clock := 2; logged := [FileNotFoundLogged "ChatLog"] |} /\
  __open_log_file
    (Examples.appearing 2 Examples.chat_log {| content := [x00]; mtime := 7 |})
    5 Examples.chat_log (Examples.tailing "old.txt" 4 [x00; x61]) Examples.rt0 =
    Ret (Examples.tailing Examples.chat_log 1 sentinel)
        {| clock := 2; logged := [FileNotFoundLogged "ChatLog"] |}.
Proof.
  destruct (open_log_file_waits_for_the_file
              (Examples.appearing 2 Examples.chat_log
                 {| content := [x00]; mtime := 7 |})
              Examples.chat_log (Examples.tailing "old.txt" 4 [x00; x61])
              Examples.rt0) as (S & R & _).
  - left. now exists "ChatLog".
  - split.
    + destruct (S 1) as (c & T & E).
      * intros k Hk. assert (k = 0 \/ k = 1) as [-> | ->] by lia; reflexivity.
      * injection T as <-. exact E.
    + apply (R 2 5 {| content := [x00]; mtime := 7 |}).
      * lia.
      * intros k Hk. assert (k = 0 \/ k = 1) as [-> | ->] by lia; reflexivity.
      * reflexivity.
Defined.

(** One-shot construction on a path that exists opens it at once. *)
Lemma init_by_path_found (w : world) (retries : nat) (target : string)
    (rt : runtime) (fl : file) :
  files w (clock rt) !! target = Some fl ->
  __init__ w retries target true rt =
    Ret (opened target fl
           {| __is_path := true; __ba := []; __f := None; __log_path := None;
              __log_type := None; __log_date := None |}) rt.
Proof.
  intros L. unfold __init__, path_exists, __open_log_file. cbn [negb].
  rewrite bool_decide_eq_true_2 by (rewrite L; eauto).
  now apply open_loop_found.
Qed.

Lemma init_by_path_missing (w : world) (retries : nat) (target : string)
    (rt : runtime) :
  files w (clock rt) !! target = None ->
  __init__ w retries target true rt = Raise (FileNotFoundError target) rt.
Proof.
  intros L. unfold __init__, path_exists. cbn [negb].
  rewrite bool_decide_eq_false_2; [reflexivity|].
  rewrite L. now intros [? ?].
Qed.

(** C6.  Given a path under which there is no file, [__init__] raises
    [FileNotFoundError] with the runtime as it found it: no attempt to open
    was made, nothing was logged and no second has passed, whatever the
    budget of retries.  And given any path at all, the one-shot constructor
    returns or raises without a [sleep(1)]: it never waits for a file. *)
Theorem init_by_path_does_not_wait (w : world) (retries : nat)
    (target : string) (rt : runtime) :
  files w (clock rt) !! target = None ->
  __init__ w retries target true rt = Raise (FileNotFoundError target) rt /\
  (forall target',
     runtime_of (__init__ w retries target' true rt) = rt /\
     (forall rt', __init__ w retries target' true rt <> Spin rt')).
Proof.
  intros L. split; [now apply init_by_path_missing|].
  intros target'. destruct (files w (clock rt) !! target') as [fl|] eqn:L'.
  - rewrite (init_by_path_found w retries target' rt fl L'). now split.
  - rewrite (init_by_path_missing w retries target' rt L'). now split.
Qed.

Lemma init_by_path_does_not_wait_witness :
  __init__ (Examples.appearing 2 Examples.message_txt
              {| content := Examples.hi_bye_le; mtime := 0 |})
    0 Examples.message_txt true Examples.rt0 =
    Raise (FileNotFoundError Examples.message_txt) Examples.rt0.
Proof.
  apply (init_by_path_does_not_wait
           (Examples.appearing 2 Examples.message_txt
              {| content := Examples.hi_bye_le; mtime := 0 |})
           0 Examples.message_txt Examples.rt0).
  reflexivity.
Defined.

(** C7, on the code.  Every object that [__init__] returns when it was given
    a path has no [__log_path]: reading the property [log_path] raises
    [AttributeError]. *)
Theorem log_path_raises_after_init_by_path (w : world) (retries : nat)
    (target : string) (rt rt' : runtime) (self : NGSLogPrep) :
  __init__ w retries target true rt = Ret self rt' ->
  log_path self rt' = Raise (AttributeError "__log_path") rt'.
Proof.
  intros I. destruct (files w (clock rt) !! target) as [fl|] eqn:L.
  - rewrite (init_by_path_found w retries target rt fl L) in I.
    now injection I as <- <-.
  - now rewrite (init_by_path_missing w retries target rt L) in I.
Qed.

Lemma log_path_raises_after_init_by_path_witness :
  log_path
    (opened Examples.message_txt {| content := Examples.hi_bye_le; mtime := 0 |}
       Examples.by_path) Examples.rt0 =
    Raise (AttributeError "__log_path") Examples.rt0.
Proof.
  apply (log_path_raises_after_init_by_path
           (Examples.on_desktop Examples.hi_bye_le) 0 Examples.message_txt
           Examples.rt0).
  reflexivity.
Defined.

(** In live mode the property returns the directory above the directory of
    the newest match of the search. *)
Lemma log_path_returns_after_init_by_type `{OsPath} (w : world) (retries : nat)
    (target : string) (rt rt' : runtime) (self : NGSLogPrep) :
  __init__ w retries target false rt = Ret self rt' ->
  exists newest_file,
    newest w (glob w (clock rt)
                (path_join (documents w) "SEGA\PHANTASYSTARONLINE2*\log*\*")) rt
      = Ret newest_file rt /\
    log_path self rt' = Ret (path_dirname (path_dirname newest_file)) rt'.
Proof.
  unfold __init__. cbn [negb].
  destruct (newest w _ rt) as [nf rt1|e rt1|rt1] eqn:N; cbn [bind]; try discriminate.
  assert (rt1 = rt) as ->.
  { unfold newest in N. destruct (mapM _ _) as [[|x xs]|]; congruence. }
  destruct (__open_log_file w retries _ _ rt) as [s1 rt1|e rt1|rt1] eqn:O;
    cbn [bind]; try discriminate.
  intros [= <- <-]. exists nf. split; [reflexivity|]. reflexivity.
Qed.

(** ** Lemmas on the variant check *)

Lemma check_variant_cases (w : world) (retries : nat)
    (base_path ngs_path : string) (self : NGSLogPrep) (rt : runtime) (h : handle) :
  __f self = Some h ->
  check_variant w retries base_path ngs_path self rt =
    match files w (clock rt) !! base_path, files w (clock rt) !! ngs_path with
    | Some base, Some ngs =>
        let '(last_path, fl) :=
          if (mtime base <? mtime ngs)%Z then (ngs_path, ngs)
          else (base_path, base) in
        if bool_decide (last_path = name h) then Ret self rt
        else Ret (opened last_path fl self) rt
    | _, _ => Ret self rt
    end.
Proof.
  intros F. unfold check_variant, path_exists, getmtime.
  destruct (files w (clock rt) !! base_path) as [base|] eqn:B;
    [|rewrite bool_decide_eq_false_2 by (now intros [? ?]); reflexivity].
  destruct (files w (clock rt) !! ngs_path) as [ngs|] eqn:G;
    [|rewrite (bool_decide_eq_false_2 (is_Some None)) by (now intros [? ?]);
      now rewrite andb_false_r].
  rewrite !bool_decide_eq_true_2 by eauto. cbn [andb bind].
  rewrite G. cbn [bind py_max foldl snd].
  rewrite F. cbn [getattr bind]. unfold __open_log_file.
  destruct (mtime base <? mtime ngs)%Z; cbn [fst];
    case_bool_decide as E; case_bool_decide as E'; try tauto; try reflexivity;
    now apply open_loop_found.
Qed.

(** The variant check returns at once, with a file open and the other
    attributes as they were. *)
Lemma check_variant_returns (w : world) (retries : nat)
    (base_path ngs_path : string) (self : NGSLogPrep) (rt : runtime) (h : handle) :
  __f self = Some h ->
  exists self1 h1,
    check_variant w retries base_path ngs_path self rt = Ret self1 rt /\
    __f self1 = Some h1 /\
    __log_type self1 = __log_type self /\
    __log_date self1 = __log_date self /\
    __log_path self1 = __log_path self.
Proof.
  intros F. rewrite (check_variant_cases w retries _ _ self rt h F).
  destruct (files w (clock rt) !! base_path) as [base|];
    [destruct (files w (clock rt) !! ngs_path) as [ngs|]|];
    [destruct (mtime base <? mtime ngs)%Z; case_bool_decide|..];
    try (exists self, h; now repeat split);
    eexists; eexists; (split; [reflexivity|]); now repeat split.
Qed.

(** ** The claims on the monitor *)

(** C4 (as amended).  The variant check of a monitor tick arbitrates only
    when both candidate files exist: then the candidate with the newer
    modification time wins, the primary one on a tie, and when the winner is
    not the name of the open file the object is reopened on it, at once.
    When a candidate is missing the check changes nothing, whichever file is
    open and whichever candidate exists. *)
Theorem variant_check_needs_both_candidates (w : world) (retries : nat)
    (base_path ngs_path : string) (self : NGSLogPrep) (rt : runtime) (h : handle) :
  __f self = Some h ->
  (forall base ngs,
     files w (clock rt) !! base_path = Some base ->
     files w (clock rt) !! ngs_path = Some ngs ->
     let last_path :=
       if (mtime base <? mtime ngs)%Z then ngs_path else base_path in
     let fl := if (mtime base <? mtime ngs)%Z then ngs else base in
     check_variant w retries base_path ngs_path self rt =
       if bool_decide (last_path = name h) then Ret self rt
       else Ret (opened last_path fl self) rt) /\
  (files w (clock rt) !! base_path = None \/
   files w (clock rt) !! ngs_path = None ->
   check_variant w retries base_path ngs_path self rt = Ret self rt).
Proof.
  intros F. rewrite (check_variant_cases w retries _ _ self rt h F). split.
  - intros base ngs -> ->. now destruct (mtime base <? mtime ngs)%Z.
  - intros [-> | ->]; [reflexivity|].
    now destruct (files w (clock rt) !! base_path).
Qed.

Lemma variant_check_needs_both_candidates_witness :
  check_variant Examples.after_midnight 0 Examples.base_0101 Examples.ngs_0101
    (Examples.tailing Examples.base_0101 1 [x00; x61]) Examples.rt0 =
    Ret (Examples.tailing Examples.ngs_0101 1 sentinel) Examples.rt0 /\
  check_variant Examples.with_log_old 0 Examples.base_0101 Examples.ngs_0101
    (Examples.tailing Examples.old_0101 1 [x00; x61]) Examples.rt0 =
    Ret (Examples.tailing Examples.old_0101 1 [x00; x61]) Examples.rt0.
Proof.
  split.
  - apply (proj1 (variant_check_needs_both_candidates Examples.after_midnight 0
             Examples.base_0101 Examples.ngs_0101
             (Examples.tailing Examples.base_0101 1 [x00; x61]) Examples.rt0
             {| name := Examples.base_0101; pos := 1 |} eq_refl)
           {| content := [x00]; mtime := 100 |}
           {| content := [x00]; mtime := 200 |});
      vm_compute; reflexivity.
  - apply (proj2 (variant_check_needs_both_candidates Examples.with_log_old 0
             Examples.base_0101 Examples.ngs_0101
             (Examples.tailing Examples.old_0101 1 [x00; x61]) Examples.rt0
             {| name := Examples.old_0101; pos := 1 |} eq_refl)).
    left. vm_compute. reflexivity.
Defined.

(** C10.  When both candidate files exist and have equal modification
    times, the variant check leaves the object on the primary candidate: it
    is untouched when that file is already the open one and reopened on the
    primary candidate otherwise. *)
Theorem tie_selects_the_primary_variant (w : world) (retries : nat)
    (base_path ngs_path : string) (self : NGSLogPrep) (rt : runtime)
    (h : handle) (base ngs : file) :
  __f self = Some h ->
  files w (clock rt) !! base_path = Some base ->
  files w (clock rt) !! ngs_path = Some ngs ->
  mtime base = mtime ngs ->
  fst (py_max snd (base_path, mtime base) [(ngs_path, mtime ngs)]) = base_path /\
  exists self',
    check_variant w retries base_path ngs_path self rt = Ret self' rt /\
    name <$> __f self' = Some base_path /\
    self' = if bool_decide (base_path = name h) then self
            else opened base_path base self.
Proof.
  intros F B G T. split.
  - cbn. rewrite T, Z.ltb_irrefl. reflexivity.
  - rewrite (check_variant_cases w retries _ _ self rt h F), B, G.
    rewrite T, Z.ltb_irrefl. case_bool_decide as E.
    + exists self. rewrite F. cbn. now rewrite E.
    + now exists (opened base_path base self).
Qed.

Lemma tie_selects_the_primary_variant_witness :
  check_variant
    (Examples.still
       {[ "log\ChatLog20260101_00.txt" := {| content := [x00; x61]; mtime := 9 |};
          "log_ngs\ChatLog20260101_00.txt" := {| content := [x00]; mtime := 9 |} ]}
       "20260101")
    0 "log\ChatLog20260101_00.txt" "log_ngs\ChatLog20260101_00.txt"
    (Examples.tailing "log_ngs\ChatLog20260101_00.txt" 1 []) Examples.rt0 =
    Ret (Examples.tailing "log\ChatLog20260101_00.txt" 2 sentinel) Examples.rt0.
Proof.
  destruct (tie_selects_the_primary_variant
              (Examples.still
                 {[ "log\ChatLog20260101_00.txt" :=
                      {| content := [x00; x61]; mtime := 9 |};
                    "log_ngs\ChatLog20260101_00.txt" :=
                      {| content := [x00]; mtime := 9 |} ]} "20260101")
              0 "log\ChatLog20260101_00.txt" "log_ngs\ChatLog20260101_00.txt"
              (Examples.tailing "log_ngs\ChatLog20260101_00.txt" 1 [])
              Examples.rt0 {| name := "log_ngs\ChatLog20260101_00.txt"; pos := 1 |}
              {| content := [x00; x61]; mtime := 9 |}
              {| content := [x00]; mtime := 9 |})
    as (_ & self' & C & _ & ->); [vm_compute; reflexivity .. | exact C].
Defined.

Section Midnight.

Context `{OsPath}.
Variable w : world.

(** The date check once the date has advanced: the file of the new date
    is awaited in the directory of the open file. *)
Lemma check_midnight_new_date (retries n : nat) (paths : string * string)
    (self : NGSLogPrep) (rt : runtime) (h : handle) (c d root : string)
    (fl : file) :
  let today := utc_date w (clock rt) in
  let target := path_join (path_dirname (name h)) (c +:+ today +:+ "_00.txt") in
  __f self = Some h -> __log_type self = Some c ->
  __log_date self = Some d -> __log_path self = Some root ->
  String.ltb d today = true ->
  n <= retries ->
  (forall k, k < n -> files w (clock rt + k) !! target = None) ->
  files w (clock rt + n) !! target = Some fl ->
  check_midnight w retries paths self rt =
    Ret (opened target fl (set_log_date today self),
         (variant_path root "log" c today, variant_path root "log_ngs" c today))
        {| clock := clock rt + n; logged := logged rt ++ warning n (Some c) |}.
Proof.
  intros today target F T D R Lt Le A P. unfold check_midnight.
  rewrite D. cbn [getattr bind]. fold today. rewrite Lt.
  cbn [__f __log_type set_log_date]. rewrite F, T. cbn [getattr bind].
  fold target.
  rewrite (open_log_file_opens w target (set_log_date today self) n retries
             rt fl); auto.
  cbn [bind __log_path __log_type opened set_ba set_f set_log_date].
  now rewrite R, T.
Qed.

Lemma monitor_loop_never_returns (ticks retries : nat)
    (paths : string * string) (self : NGSLogPrep) (rt rt' : runtime)
    (r : NGSLogPrep) :
  monitor_loop w ticks retries paths self rt <> Ret r rt'.
Proof.
  revert paths self rt. induction ticks as [|ticks IH]; intros paths self rt;
    cbn [monitor_loop]; [discriminate|].
  destruct (monitor_tick w retries paths self rt) as [[s p] rt1|e rt1|rt1];
    cbn [bind]; [apply IH|discriminate..].
Qed.

(** [__log_monitor] has no exit: after any number of iterations it has
    raised or is still running. *)
Lemma log_monitor_never_returns (ticks retries : nat) (self : NGSLogPrep)
    (rt rt' : runtime) (r : NGSLogPrep) :
  __log_monitor w ticks retries self rt <> Ret r rt'.
Proof.
  unfold __log_monitor.
  destruct (__log_path self); cbn [getattr bind]; [|discriminate].
  destruct (__log_type self); cbn [getattr bind]; [|discriminate].
  destruct (__log_date self); cbn [getattr bind]; [|discriminate].
  apply monitor_loop_never_returns.
Qed.

End Midnight.

(** C3 (as amended).  On a monitor tick at which the UTC date is later than
    the stored date, the variant check comes first and leaves some file
    open; the stored date is then updated and the file
    [<type><new date>_00.txt] is awaited and opened in the directory of that
    open file (the [log] directory only when the object was reading there),
    which puts the cursor of a live object at the end of the file and the
    sentinel in the buffer; both candidate paths are then recomputed for the
    new date and the tick ends with its sleep of 15 seconds. *)
Theorem midnight_reopens_beside_the_open_file `{OsPath} (w : world)
    (retries : nat) (paths : string * string) (self : NGSLogPrep) (rt : runtime)
    (h : handle) (c d root : string) :
  __f self = Some h -> __log_type self = Some c ->
  __log_date self = Some d -> __log_path self = Some root ->
  String.ltb d (utc_date w (clock rt)) = true ->
  exists self1 h1,
    check_variant w retries paths.1 paths.2 self rt = Ret self1 rt /\
    __f self1 = Some h1 /\
    let today := utc_date w (clock rt) in
    let target := path_join (path_dirname (name h1)) (c +:+ today +:+ "_00.txt") in
    forall n fl,
      n <= retries ->
      (forall k, k < n -> files w (clock rt + k) !! target = None) ->
      files w (clock rt + n) !! target = Some fl ->
      monitor_tick w retries paths self rt =
        Ret (opened target fl (set_log_date today self1),
             (variant_path root "log" c today,
              variant_path root "log_ngs" c today))
            {| clock := clock rt + n + 15;
               logged := logged rt ++ warning n (Some c) |}.
Proof.
  intros F T D R Lt.
  destruct (check_variant_returns w retries paths.1 paths.2 self rt h F)
    as (self1 & h1 & V & F1 & T1 & D1 & R1).
  exists self1, h1. split; [exact V|]. split; [exact F1|].
  intros today target n fl Le A P. unfold monitor_tick. rewrite V. cbn [bind].
  rewrite (check_midnight_new_date w retries n paths self1 rt h1 c d root fl);
    try congruence; auto.
Qed.

Lemma midnight_reopens_beside_the_open_file_witness :
  monitor_tick Examples.after_midnight 0 (Examples.base_0101, Examples.ngs_0101)
    (Examples.tailing Examples.ngs_0101 1 [x00; x61]) Examples.rt0 =
    Ret (opened Examples.ngs_0102 {| content := [x00]; mtime := 301 |}
           (set_log_date "20260102"
              (Examples.tailing Examples.ngs_0101 1 [x00; x61])),
         (Examples.base_0102, Examples.ngs_0102))
        {| clock := 15; logged := [] |}.
Proof.
  destruct (midnight_reopens_beside_the_open_file Examples.after_midnight 0
              (Examples.base_0101, Examples.ngs_0101)
              (Examples.tailing Examples.ngs_0101 1 [x00; x61]) Examples.rt0
              {| name := Examples.ngs_0101; pos := 1 |}
              "ChatLog" "20260101" Examples.install
              eq_refl eq_refl eq_refl eq_refl eq_refl)
    as (self1 & h1 & V & F1 & M).
  vm_compute in V. injection V as <-. vm_compute in F1. injection F1 as <-.
  apply (M 0 {| content := [x00]; mtime := 301 |}).
  - lia.
  - intros k Hk. lia.
  - vm_compute. reflexivity.
Defined.

(** C3, counterexample.  The object reads the NGS file of the first of
    January when the second begins; the files of the new day exist in both
    variant directories.  The tick reopens the object in [log_ngs], not in
    the primary directory [log]. *)
Lemma midnight_reopen_counterexample :
  exists self' paths' rt',
    monitor_tick Examples.after_midnight 0
      (Examples.base_0101, Examples.ngs_0101)
      (Examples.tailing Examples.ngs_0101 1 [x00; x61]) Examples.rt0
      = Ret (self', paths') rt' /\
    name <$> __f self' = Some Examples.ngs_0102 /\
    name <$> __f self'
      <> Some (variant_path Examples.install "log" "ChatLog" "20260102").
Proof.
  eexists; eexists; eexists. split; [vm_compute; reflexivity|].
  split; [reflexivity|]. vm_compute. discriminate.
Qed.

(** C4, counterexample.  The newest file of the installation lies in a third
    directory [log_old]; [__init__] opens the chat log there.  Of the two
    candidates only the one in [log_ngs] exists, and it is not the open
    file: the tick leaves the object on the file in [log_old]. *)
Lemma variant_check_counterexample :
  exists self rt',
    __init__ Examples.with_log_old 0 "ChatLog" false Examples.rt0
      = Ret self Examples.rt0 /\
    files Examples.with_log_old 0 !! Examples.base_0101 = None /\
    is_Some (files Examples.with_log_old 0 !! Examples.ngs_0101) /\
    variant_path Examples.install "log_ngs" "ChatLog" "20260101"
      = Examples.ngs_0101 /\
    monitor_tick Examples.with_log_old 0
      (variant_path Examples.install "log" "ChatLog" "20260101",
       variant_path Examples.install "log_ngs" "ChatLog" "20260101")
      self Examples.rt0
      = Ret (self, (Examples.base_0101, Examples.ngs_0101)) rt' /\
    name <$> __f self = Some Examples.old_0101 /\
    name <$> __f self <> Some Examples.ngs_0101.
Proof.
  eexists; eexists. split; [vm_compute; reflexivity|].
  split; [vm_compute; reflexivity|].
  split; [vm_compute; eauto|].
  split; [vm_compute; reflexivity|].
  split; [vm_compute; reflexivity|].
  split; [reflexivity|]. vm_compute. discriminate.
Qed.

(** ** What one call of [get_lines] changes *)

(** [frame] extends the lines and the log and looks at neither. *)
Lemma frame_extends (x : byte) (self : NGSLogPrep) :
  exists (b : list byte) (records : list log_record) (lines : list pystr),
    forall rt ls,
      frame x (self, rt, ls) =
        (set_ba b self,
         {| clock := clock rt; logged := logged rt ++ records |}, ls ++ lines).
Proof.
  unfold frame. cbn [__ba set_ba]. case_bool_decide as E.
  - destruct (Utf16.decode _) as [line|].
    + exists [], [], [line]. intros [c lg] ls. cbn. now rewrite app_nil_r.
    + exists [], [DecodeErrorLogged (__ba self ++ [x])], []. intros rt ls.
      now rewrite app_nil_r.
  - exists (__ba self ++ [x]), [], []. intros [c lg] ls. cbn.
    now rewrite !app_nil_r.
Qed.

(** The loop touches the buffer and the cursor and nothing else of the
    object, and only appends to the lines and to the log. *)
Lemma read_loop_extends (bytes : list byte) (self : NGSLogPrep) :
  exists (b : list byte) (records : list log_record) (lines : list pystr),
    forall rt ls,
      read_loop bytes (self, rt, ls) =
        (set_ba b (advanced (length bytes) self),
         {| clock := clock rt; logged := logged rt ++ records |}, ls ++ lines).
Proof.
  revert self. induction bytes as [|x bytes IH]; intros self.
  - exists (__ba self), [], []. intros [c lg] ls. cbn.
    rewrite !app_nil_r. now destruct self.
  - destruct (frame_extends x (advance self)) as (b1 & r1 & l1 & F).
    destruct (IH (set_ba b1 (advance self))) as (b2 & r2 & l2 & R).
    exists b2, (r1 ++ r2), (l1 ++ l2). intros rt ls.
    cbn [read_loop]. rewrite F, R. cbn [clock logged length].
    rewrite advanced_set_ba, set_ba_set_ba, advanced_succ, !app_assoc.
    reflexivity.
Qed.

Lemma advanced_f (n : nat) (self : NGSLogPrep) (h : handle) :
  __f self = Some h ->
  __f (advanced n self) = Some {| name := name h; pos := pos h + n |}.
Proof.
  intros F. induction n as [|n IH].
  - change (advanced 0 self) with self. rewrite F, Nat.add_0_r. now destruct h.
  - change (advanced (S n) self) with (advance (advanced n self)).
    unfold advance. rewrite IH. cbn. now rewrite Nat.add_succ_r.
Qed.

Lemma pending_length (w : world) (h : handle) (rt : runtime) (fl : file) :
  files w (clock rt) !! name h = Some fl ->
  length (pending w h rt) = length (content fl) - pos h.
Proof. intros L. unfold pending. rewrite L. apply length_drop. Qed.

Lemma get_lines_extends (w : world) (self : NGSLogPrep) (rt : runtime)
    (h : handle) :
  __f self = Some h ->
  exists b records lines,
    forall c lg,
      clock rt = c ->
      get_lines w self {| clock := c; logged := lg |} =
        Ret (lines, set_ba b (advanced (length (pending w h rt)) self))
            {| clock := c; logged := lg ++ records |}.
Proof.
  intros F. destruct (read_loop_extends (pending w h rt) self) as (b & r & l & R).
  exists b, r, l. intros c lg <-.
  rewrite (get_lines_pending w self _ h F).
  change (pending w h {| clock := clock rt; logged := lg |}) with (pending w h rt).
  now rewrite R.
Qed.

(** X1.  A call of [get_lines] leaves the object as it was except for the
    buffer and the cursor, which has moved over exactly the bytes that were
    behind it in the file; the call takes no time and only appends to the
    log. *)
Theorem get_lines_keeps_the_object (w : world) (self : NGSLogPrep)
    (rt : runtime) (h : handle) :
  __f self = Some h ->
  exists lines self' records,
    get_lines w self rt =
      Ret (lines, self') {| clock := clock rt; logged := logged rt ++ records |} /\
    __f self' = Some {| name := name h;
                        pos := pos h + length (pending w h rt) |} /\
    __is_path self' = __is_path self /\
    __log_path self' = __log_path self /\
    __log_type self' = __log_type self /\
    __log_date self' = __log_date self.
Proof.
  intros F. destruct (get_lines_extends w self rt h F) as (b & r & l & G).
  exists l, (set_ba b (advanced (length (pending w h rt)) self)), r.
  split; [destruct rt as [c lg]; now apply G|].
  cbn [__f __is_path __log_path __log_type __log_date set_ba].
  split; [now apply advanced_f|].
  generalize (length (pending w h rt)). intros n.
  induction n as [|n (I1 & I2 & I3 & I4)]; [now repeat split|].
  change (advanced (S n) self) with (advance (advanced n self)).
  unfold advance. destruct (__f (advanced n self)); now repeat split.
Qed.

Lemma get_lines_keeps_the_object_witness :
  exists lines self' records,
    get_lines
      (Examples.still {[ "ChatLog.txt" :=
          {| content := Examples.bad_then_ok; mtime := 0 |} ]} "20260101")
      (Examples.tailing "ChatLog.txt" 2 [xdc; x00]) Examples.rt0 =
      Ret (lines, self') {| clock := 0; logged := [] ++ records |} /\
    __f self' = Some {| name := "ChatLog.txt"; pos := 14 |} /\
    __is_path self' = false /\
    __log_path self' = Some Examples.install /\
    __log_type self' = Some "ChatLog" /\
    __log_date self' = Some "20260101".
Proof.
  exact (get_lines_keeps_the_object
           (Examples.still {[ "ChatLog.txt" :=
              {| content := Examples.bad_then_ok; mtime := 0 |} ]} "20260101")
           (Examples.tailing "ChatLog.txt" 2 [xdc; x00]) Examples.rt0
           {| name := "ChatLog.txt"; pos := 2 |} eq_refl).
Defined.

(** X2.  No line is returned twice: a second call of [get_lines], made
    before the file changes, returns no line, logs nothing and leaves the
    object as the first call left it. *)
Theorem get_lines_again_returns_nothing (w : world) (self : NGSLogPrep)
    (rt : runtime) (h : handle) :
  __f self = Some h ->
  exists lines self' rt',
    get_lines w self rt = Ret (lines, self') rt' /\
    get_lines w self' rt' = Ret ([], self') rt'.
Proof.
  intros F. destruct (get_lines_extends w self rt h F) as (b & r & l & G).
  destruct rt as [c lg]. specialize (G c lg eq_refl).
  set (rt := {| clock := c; logged := lg |}) in *.
  set (n := length (pending w h rt)) in *.
  exists l, (set_ba b (advanced n self)), {| clock := c; logged := lg ++ r |}.
  split; [exact G|].
  assert (F' : __f (set_ba b (advanced n self))
               = Some {| name := name h; pos := pos h + n |})
    by now apply advanced_f.
  rewrite (get_lines_pending w _ _ _ F').
  assert (P : pending w {| name := name h; pos := pos h + n |}
                {| clock := c; logged := lg ++ r |} = []).
  { unfold pending. cbn [name pos clock]. subst n. unfold pending.
    change (clock rt) with c.
    destruct (files w c !! name h) as [fl|]; [|reflexivity].
    apply drop_ge. rewrite length_drop. lia. }
  now rewrite P.
Qed.

Lemma get_lines_again_returns_nothing_witness :
  exists lines self' rt',
    get_lines (Examples.on_desktop Examples.hi_bye_le)
      (opened Examples.message_txt
         {| content := Examples.hi_bye_le; mtime := 0 |} Examples.by_path)
      Examples.rt0 = Ret (lines, self') rt' /\
    get_lines (Examples.on_desktop Examples.hi_bye_le) self' rt'
      = Ret ([], self') rt'.
Proof.
  exact (get_lines_again_returns_nothing
           (Examples.on_desktop Examples.hi_bye_le)
           (opened Examples.message_txt
              {| content := Examples.hi_bye_le; mtime := 0 |} Examples.by_path)
           Examples.rt0 {| name := Examples.message_txt; pos := 2 |} eq_refl).
Defined.

(** X3.  Reading a growing file in two calls gives what one call gives: when
    the file has only been appended to between two calls of [get_lines], the
    lines of the first call followed by the lines of the second are the
    lines that a single call at the later time returns, and the object and
    the log end up the same.  A record cut in two by the first call is
    completed by the second. *)
Theorem get_lines_in_two_polls (w : world) (self : NGSLogPrep) (rt : runtime)
    (h : handle) (n : nat) (fl1 fl2 : file) (more : list byte) :
  __f self = Some h ->
  files w (clock rt) !! name h = Some fl1 ->
  files w (clock rt + n) !! name h = Some fl2 ->
  content fl2 = content fl1 ++ more ->
  pos h <= length (content fl1) ->
  exists lines1 self1 rt1 lines2 self2 rt2,
    get_lines w self rt = Ret (lines1, self1) rt1 /\
    get_lines w self1 (sleep n rt1) = Ret (lines2, self2) rt2 /\
    get_lines w self (sleep n rt) = Ret (lines1 ++ lines2, self2) rt2.
Proof.
  intros F L1 L2 C Le.
  destruct (read_loop_extends (drop (pos h) (content fl1)) self)
    as (b1 & r1 & l1 & R1).
  set (n1 := length (drop (pos h) (content fl1))) in *.
  set (self1 := set_ba b1 (advanced n1 self)) in *.
  destruct (read_loop_extends more self1) as (b2 & r2 & l2 & R2).
  assert (F1 : __f self1 = Some {| name := name h; pos := pos h + n1 |})
    by now apply advanced_f.
  assert (N1 : pos h + n1 = length (content fl1))
    by (subst n1; rewrite length_drop; lia).
  exists l1, self1, {| clock := clock rt; logged := logged rt ++ r1 |},
    l2, (set_ba b2 (advanced (length more) self1)),
    {| clock := clock rt + n; logged := (logged rt ++ r1) ++ r2 |}.
  split; [|split].
  - rewrite (get_lines_pending w self rt h F). unfold pending. rewrite L1.
    now rewrite R1.
  - rewrite (get_lines_pending w self1 _ _ F1). unfold pending, sleep.
    cbn [clock logged name pos]. rewrite L2, C, N1, drop_app_length.
    now rewrite R2.
  - rewrite (get_lines_pending w self _ h F). unfold pending, sleep.
    cbn [clock logged]. rewrite L2, C, drop_app_le by exact Le.
    rewrite read_loop_app, R1. cbn [clock logged]. now rewrite R2.
Qed.

Lemma get_lines_in_two_polls_witness :
  exists lines1 self1 rt1 lines2 self2 rt2,
    get_lines Examples.growing (Examples.tailing Examples.chat_log 0 sentinel)
      Examples.rt0 = Ret (lines1, self1) rt1 /\
    get_lines Examples.growing self1 (sleep 1 rt1) = Ret (lines2, self2) rt2 /\
    get_lines Examples.growing (Examples.tailing Examples.chat_log 0 sentinel)
      (sleep 1 Examples.rt0) = Ret (lines1 ++ lines2, self2) rt2.
Proof.
  apply (get_lines_in_two_polls Examples.growing
           (Examples.tailing Examples.chat_log 0 sentinel) Examples.rt0
           {| name := Examples.chat_log; pos := 0 |} 1
           {| content := [x68; x00; x69]; mtime := 1 |}
           {| content := [x68; x00; x69; x00; x0d; x00; x0a; x00]; mtime := 2 |}
           [x00; x0d; x00; x0a; x00]);
    [reflexivity | reflexivity | reflexivity | reflexivity | cbn; lia].
Defined.

(** ** Streams of records *)

Lemma read_loop_stream (rs : list (list byte)) :
  forall (r : list byte) (self : NGSLogPrep) (rt : runtime) (ls : list pystr),
    unterminated (__ba self) r = true ->
    Forall (fun r' => unterminated [] r' = true) rs ->
    read_loop (stream (r :: rs)) (self, rt, ls) =
      (set_ba [] (advanced (length (stream (r :: rs))) self),
       {| clock := clock rt;
          logged := logged rt ++ decode_errors ((__ba self ++ r) :: rs) |},
       ls ++ omap Utf16.decode ((__ba self ++ r) :: rs)).
Proof.
  induction rs as [|r' rs IH]; intros r self rt ls Q Qs.
  - unfold stream. cbn [map concat]. rewrite app_nil_r, read_loop_record by exact Q.
    unfold decode_errors. cbn [omap]. rewrite length_app. cbn [length].
    destruct (Utf16.decode (__ba self ++ r)) as [line|] eqn:D.
    + rewrite filter_cons_False by congruence. rewrite filter_nil.
      cbn. rewrite D, app_nil_r. now destruct rt.
    + rewrite filter_cons_True by exact D. rewrite filter_nil.
      cbn. now rewrite D, app_nil_r, <- app_assoc.
  - inversion Qs as [|? ? Q' Qs']; subst.
    change (stream (r :: r' :: rs)) with ((r ++ terminator) ++ stream (r' :: rs)).
    rewrite read_loop_app, read_loop_record by exact Q.
    rewrite (length_app (r ++ terminator)), length_app.
    change (length terminator) with 4.
    unfold decode_errors in *.
    assert (O : omap Utf16.decode ((__ba self ++ r) :: r' :: rs)
                = match Utf16.decode (__ba self ++ r) with
                  | Some line => [line]
                  | None => []
                  end ++ omap Utf16.decode (r' :: rs)).
    { cbn. now destruct (Utf16.decode (__ba self ++ r)). }
    rewrite O.
    destruct (Utf16.decode (__ba self ++ r)) as [line|] eqn:D;
      rewrite IH by (cbn [__ba set_ba]; assumption);
      cbn [__ba set_ba app clock logged];
      rewrite advanced_set_ba, set_ba_set_ba, advanced_add.
    + rewrite (filter_cons_False _ (__ba self ++ r)) by congruence.
      now rewrite <- app_assoc.
    + rewrite (filter_cons_True _ (__ba self ++ r)) by exact D.
      rewrite fmap_cons. unfold logging_error. cbn [clock logged].
      now rewrite <- !app_assoc.
Qed.

(** X4.  On a stream of records, each closed by the terminator, one call of
    [get_lines] returns the decoded text of exactly the records that decode,
    in the order of the stream, and logs one decode error, with the bytes in
    question, for every record that does not; what is decoded for the first
    record starts with the bytes that were in the buffer.  The buffer is
    empty afterwards and the cursor stands at the end of the stream. *)
Theorem get_lines_on_a_stream (w : world) (self : NGSLogPrep) (rt : runtime)
    (h : handle) (r : list byte) (rs : list (list byte)) :
  __f self = Some h ->
  pending w h rt = stream (r :: rs) ->
  unterminated (__ba self) r = true ->
  Forall (fun r' => unterminated [] r' = true) rs ->
  get_lines w self rt =
    Ret (omap Utf16.decode ((__ba self ++ r) :: rs),
         set_ba [] (advanced (length (stream (r :: rs))) self))
        {| clock := clock rt;
           logged := logged rt ++ decode_errors ((__ba self ++ r) :: rs) |}.
Proof.
  intros F P Q Qs. rewrite (get_lines_pending w self rt h F), P.
  now rewrite read_loop_stream.
Qed.

Lemma get_lines_on_a_stream_witness :
  get_lines
    (Examples.still {[ "ChatLog.txt" :=
        {| content := Examples.three_records; mtime := 0 |} ]} "20260101")
    (Examples.tailing "ChatLog.txt" 0 sentinel) Examples.rt0 =
    Ret ([text "a"; text "ok"],
         set_ba [] (advanced 19 (Examples.tailing "ChatLog.txt" 0 sentinel)))
        {| clock := 0;
           logged := [DecodeErrorLogged ([xdc; x00] ++ terminator)] |}.
Proof.
  apply (get_lines_on_a_stream
           (Examples.still {[ "ChatLog.txt" :=
              {| content := Examples.three_records; mtime := 0 |} ]} "20260101")
           (Examples.tailing "ChatLog.txt" 0 sentinel) Examples.rt0
           {| name := "ChatLog.txt"; pos := 0 |}
           [x61] [[xdc; x00]; [x00; x6f; x00; x6b]]);
    [reflexivity | reflexivity | reflexivity |].
  repeat constructor.
Defined.

(** ** Lines and the pair of carriage return and line feed *)

Lemma to_N_inj (a b : byte) : Byte.to_N a = Byte.to_N b -> a = b.
Proof.
  intros E. pose proof (Byte.of_to_N a) as A. rewrite E, Byte.of_to_N in A.
  now injection A.
Qed.

Lemma code_unit_small (hi lo c : byte) :
  Utf16.code_unit hi lo = Byte.to_N c -> hi = x00 /\ lo = c.
Proof.
  unfold Utf16.code_unit. intros E.
  pose proof (Byte.to_N_bounded lo). pose proof (Byte.to_N_bounded c).
  split; apply to_N_inj; cbn; lia.
Qed.

Lemma terminator_free_nil : terminator_free [].
Proof. intros [|? ?] after; discriminate. Qed.

Lemma terminator_free_prefix (a b : list byte) :
  terminator_free (a ++ b) -> terminator_free a.
Proof.
  intros T before after ->. apply (T before (after ++ b)).
  now rewrite <- !app_assoc.
Qed.

Lemma terminator_free_snoc (b : list byte) (x : byte) :
  terminator_free b ->
  last_bytes 4 (b ++ [x]) <> terminator ->
  terminator_free (b ++ [x]).
Proof.
  intros T N before after E.
  destruct after as [|y after _] using rev_ind.
  - apply N. rewrite E, app_nil_r. apply last_bytes_app_terminator.
  - rewrite !app_assoc in E. apply app_inj_tail in E as [E _].
    apply (T before after). now rewrite E, <- app_assoc.
Qed.

(** The first character of a decoded text comes from the first two bytes,
    or is beyond U+FFFF. *)
Lemma decode_cons (b : list byte) (u : N) (t : pystr) :
  Utf16.decode b = Some (u :: t) ->
  exists first rest,
    b = first ++ rest /\ Utf16.decode rest = Some t /\
    ((exists hi lo, first = [hi; lo] /\ u = Utf16.code_unit hi lo)
     \/ (0x10000 <= u)%N).
Proof.
  destruct b as [|hi [|lo rest]]; try discriminate. cbn [Utf16.decode].
  destruct (Utf16.is_high_surrogate (Utf16.code_unit hi lo)).
  - destruct rest as [|hi2 [|lo2 rest]]; try discriminate.
    destruct (Utf16.is_low_surrogate (Utf16.code_unit hi2 lo2)); try discriminate.
    destruct (Utf16.decode rest) as [t'|] eqn:D; try discriminate.
    intros [= <- <-]. exists [hi; lo; hi2; lo2], rest.
    split; [reflexivity|]. split; [exact D|]. right.
    unfold Utf16.join_surrogates. lia.
  - destruct (Utf16.is_low_surrogate (Utf16.code_unit hi lo)); try discriminate.
    destruct (Utf16.decode rest) as [t'|] eqn:D; try discriminate.
    intros [= <- <-]. exists [hi; lo], rest.
    split; [reflexivity|]. split; [exact D|]. left. eauto.
Qed.

(** A text with a carriage return before a line feed was decoded from bytes
    that hold the terminator. *)
Lemma decode_crlf (t1 t2 : pystr) :
  forall b : list byte,
    Utf16.decode b = Some (t1 ++ [13%N; 10%N] ++ t2) ->
    exists before after, b = before ++ terminator ++ after.
Proof.
  induction t1 as [|u t1 IH]; intros b D.
  - apply decode_cons in D as (f1 & rest & -> & D & [(hi & lo & -> & E)|G]);
      [|lia].
    apply decode_cons in D as (f2 & rest' & -> & D & [(hi2 & lo2 & -> & E2)|G]);
      [|lia].
    symmetry in E, E2.
    apply (code_unit_small hi lo x0d) in E as [-> ->].
    apply (code_unit_small hi2 lo2 x0a) in E2 as [-> ->].
    now exists [], rest'.
  - apply decode_cons in D as (f & rest & -> & D & _).
    destruct (IH rest D) as (before & after & ->).
    exists (f ++ before), after. now rewrite <- app_assoc.
Qed.

Lemma frame_keeps_terminator_free (x : byte) (self : NGSLogPrep)
    (rt : runtime) (ls : list pystr) :
  terminator_free (__ba self) -> Forall crlf_free ls ->
  terminator_free (__ba (frame x (self, rt, ls)).1.1) /\
  Forall crlf_free (frame x (self, rt, ls)).2.
Proof.
  intros T L.
  destruct (decide (last_bytes 4 (__ba self ++ [x]) = terminator)) as [E|N].
  - rewrite frame_terminated by exact E.
    destruct (Utf16.decode _) as [line|] eqn:D; cbn [fst snd __ba set_ba];
      (split; [apply terminator_free_nil|]); [|exact L].
    apply Forall_app. split; [exact L|]. constructor; [|constructor].
    intros t1 t2 ->. apply decode_crlf in D as (before & after & S).
    pose proof (last_bytes_strip 4 (__ba self ++ [x])) as B.
    rewrite E, S in B. change terminator with ([x00; x0d; x00] ++ [x0a]) in B at 2.
    rewrite !app_assoc in B. apply app_inj_tail in B as [B _].
    apply (T before (after ++ [x00; x0d; x00])). now rewrite <- B, <- !app_assoc.
  - rewrite frame_unterminated by exact N. cbn [fst snd __ba set_ba].
    split; [now apply terminator_free_snoc|exact L].
Qed.

Lemma read_loop_keeps_terminator_free (bytes : list byte) :
  forall (self : NGSLogPrep) (rt : runtime) (ls : list pystr),
    terminator_free (__ba self) -> Forall crlf_free ls ->
    terminator_free (__ba (read_loop bytes (self, rt, ls)).1.1) /\
    Forall crlf_free (read_loop bytes (self, rt, ls)).2.
Proof.
  induction bytes as [|x bytes IH]; intros self rt ls T L; [now split|].
  cbn [read_loop].
  assert (B : __ba (advance self) = __ba self) by apply (advanced_ba 1).
  destruct (frame_keeps_terminator_free x (advance self) rt ls) as (T1 & L1);
    [now rewrite B | exact L |].
  destruct (frame x (advance self, rt, ls)) as [[s1 rt1] ls1].
  now apply IH.
Qed.

(** X5.  No line that [get_lines] returns has a carriage return followed by
    a line feed in it: such a pair would have ended the line.  This holds
    from every buffer that is free of the terminator, as the buffer is after
    any (re)open, and the buffer is free of it again after the call. *)
Theorem lines_have_no_crlf (w : world) (self : NGSLogPrep) (rt : runtime)
    (h : handle) :
  __f self = Some h ->
  terminator_free (__ba self) ->
  exists lines self' rt',
    get_lines w self rt = Ret (lines, self') rt' /\
    Forall crlf_free lines /\
    terminator_free (__ba self').
Proof.
  intros F T. rewrite (get_lines_pending w self rt h F).
  destruct (read_loop_keeps_terminator_free (pending w h rt) self rt [] T)
    as (T' & L'); [constructor|].
  destruct (read_loop _ _) as [[self' rt'] lines].
  now exists lines, self', rt'.
Qed.

Lemma lines_have_no_crlf_witness :
  exists lines self' rt',
    get_lines (Examples.on_desktop Examples.hi_bye_le)
      (opened Examples.message_txt
         {| content := Examples.hi_bye_le; mtime := 0 |} Examples.by_path)
      Examples.rt0 = Ret (lines, self') rt' /\
    Forall crlf_free lines /\
    terminator_free (__ba self').
Proof.
  apply (lines_have_no_crlf (Examples.on_desktop Examples.hi_bye_le)
           (opened Examples.message_txt
              {| content := Examples.hi_bye_le; mtime := 0 |} Examples.by_path)
           Examples.rt0 {| name := Examples.message_txt; pos := 2 |} eq_refl).
  intros [|a [|b before]] after; discriminate.
Defined.

(** ** Whole files stored low byte first *)

Lemma unterminated_low_byte_first_after (chars : list byte) :
  forall (b : list byte) (p : byte),
    no_crlf (p :: chars) = true ->
    unterminated (b ++ [p; x00]) (low_byte_first chars) = true.
Proof.
  induction chars as [|c chars IH]; intros b p N; [reflexivity|].
  cbn [no_crlf] in N. apply andb_true_iff in N as [N1 N2].
  change (low_byte_first (c :: chars)) with (c :: x00 :: low_byte_first chars).
  cbn [unterminated]. repeat (apply andb_true_intro; split).
  - apply negb_true_iff, bool_decide_eq_false. intros E.
    pose proof (last_bytes_strip 4 ((b ++ [p; x00]) ++ [c])) as S.
    rewrite E in S. revert S.
    change terminator with ([x00] ++ [x0d] ++ [x00] ++ [x0a]).
    change [p; x00] with ([p] ++ [x00]). rewrite !app_assoc.
    intros S. apply app_inj_tail in S as [S Ec].
    apply app_inj_tail in S as [S _]. apply app_inj_tail in S as [_ Ep].
    subst c p. cbn in N1. discriminate.
  - apply negb_true_iff, bool_decide_eq_false. intros E.
    apply terminator_last in E. discriminate.
  - replace (((b ++ [p; x00]) ++ [c]) ++ [x00]) with ((b ++ [p; x00]) ++ [c; x00])
      by now rewrite <- !app_assoc.
    now apply IH.
Qed.

(** Characters without a carriage return before a line feed complete no
    terminator when they are read, low byte first, from the sentinel. *)
Lemma unterminated_low_byte_first (chars : list byte) :
  no_crlf chars = true ->
  unterminated sentinel (low_byte_first chars) = true.
Proof.
  destruct chars as [|c chars]; intros N; [reflexivity|].
  change (low_byte_first (c :: chars)) with (c :: x00 :: low_byte_first chars).
  cbn [unterminated]. repeat (apply andb_true_intro; split).
  - apply negb_true_iff, bool_decide_eq_false. cbn. discriminate.
  - apply negb_true_iff, bool_decide_eq_false. intros E.
    apply terminator_last in E. discriminate.
  - change ((sentinel ++ [c]) ++ [x00]) with ([x00] ++ [c; x00]).
    now apply unterminated_low_byte_first_after.
Qed.

Lemma read_loop_low_byte_first_lines (lines : list (list byte)) :
  forall (self : NGSLogPrep) (rt : runtime) (ls : list pystr),
    __ba self = sentinel ->
    Forall (fun chars => no_crlf chars = true) lines ->
    read_loop
      (concat (map (fun chars => low_byte_first chars ++ line_end_low_byte_first)
                   lines)) (self, rt, ls) =
      (set_ba sentinel
         (advanced
            (length (concat (map (fun chars =>
               low_byte_first chars ++ line_end_low_byte_first) lines))) self),
       rt, ls ++ map (map Byte.to_N) lines).
Proof.
  induction lines as [|chars lines IH]; intros self rt ls S N.
  - cbn. rewrite app_nil_r. destruct self. cbn in S. now subst.
  - inversion N as [|? ? N1 N2]; subst. cbn [map concat].
    rewrite read_loop_app, read_loop_low_byte_first
      by (try exact S; now apply unterminated_low_byte_first).
    rewrite IH by (try exact N2; reflexivity).
    rewrite advanced_set_ba, set_ba_set_ba, advanced_add, <- app_assoc.
    rewrite (length_app (low_byte_first chars ++ line_end_low_byte_first)).
    rewrite (length_app (low_byte_first chars)). reflexivity.
Qed.

(** X6.  A log file as the game writes it is read back line by line: when
    the file holds the mark [FF FE] and then lines of characters below
    U+0100, low byte first, each with its line end [0D 00 0A 00], and no
    line has a carriage return before a line feed, then opening the file by
    path and calling [get_lines] once returns exactly these lines, in
    order, with nothing logged; the buffer is the sentinel again and the
    cursor is at the end of the file. *)
Theorem read_once_low_byte_first_file (w : world) (path : string)
    (rt : runtime) (fl : file) (lines : list (list byte)) :
  files w (clock rt) !! path = Some fl ->
  content fl = low_byte_first_file lines ->
  Forall (fun chars => no_crlf chars = true) lines ->
  exists self,
    read_once w path rt = Ret (map (map Byte.to_N) lines, self) rt /\
    __ba self = sentinel /\
    __f self = Some {| name := path; pos := length (content fl) |}.
Proof.
  intros L C N. unfold read_once.
  rewrite (init_by_path_found w 0 path rt fl L). cbn [bind].
  set (self := opened path fl _).
  assert (F : __f self = Some {| name := path; pos := 2 |}).
  { subst self. unfold opened. cbn. rewrite C. reflexivity. }
  rewrite (get_lines_pending w self rt _ F). unfold pending.
  cbn [name pos]. rewrite L, C. unfold low_byte_first_file.
  change (drop 2 ([xff; xfe] ++ ?l)) with l.
  rewrite read_loop_low_byte_first_lines by (try exact N; reflexivity).
  eexists. split; [reflexivity|]. split; [reflexivity|].
  cbn [__f set_ba]. rewrite (advanced_f _ _ _ F). cbn [name pos].
  rewrite length_app. reflexivity.
Qed.

Lemma read_once_low_byte_first_file_witness :
  exists self,
    read_once (Examples.on_desktop Examples.hi_bye_le) Examples.message_txt
      Examples.rt0 = Ret ([text "hi"; text "bye"], self) Examples.rt0 /\
    __ba self = sentinel /\
    __f self = Some {| name := Examples.message_txt; pos := 20 |}.
Proof.
  apply (read_once_low_byte_first_file
           (Examples.on_desktop Examples.hi_bye_le) Examples.message_txt
           Examples.rt0 {| content := Examples.hi_bye_le; mtime := 0 |}
           [[x68; x69]; [x62; x79; x65]]);
    [reflexivity | reflexivity | repeat constructor].
Defined.

(** ** The newest match and the constructor in live mode *)

Lemma py_max_greatest {A : Type} (key : A -> Z) (xs : list A) :
  forall x : A,
    py_max key x xs ∈ x :: xs /\
    (forall y, y ∈ x :: xs -> (key y <= key (py_max key x xs))%Z).
Proof.
  induction xs as [|z xs IH]; intros x.
  - cbn. split; [apply list_elem_of_here|].
    intros y Hy. apply list_elem_of_singleton in Hy as ->. lia.
  - change (py_max key x (z :: xs))
      with (py_max key (if (key x <? key z)%Z then z else x) xs).
    destruct (IH (if (key x <? key z)%Z then z else x)) as [I M].
    split.
    + apply elem_of_cons in I as [->|I].
      * destruct (key x <? key z)%Z; [right; left|left].
      * right; right; exact I.
    + intros y Hy.
      assert (K : (key x <= key (if (key x <? key z)%Z then z else x)
                   /\ key z <= key (if (key x <? key z)%Z then z else x))%Z).
      { destruct (key x <? key z)%Z eqn:C; [apply Z.ltb_lt in C|apply Z.ltb_ge in C];
          lia. }
      pose proof (M _ (list_elem_of_here _ _)) as M0.
      apply elem_of_cons in Hy as [->|Hy]; [lia|].
      apply elem_of_cons in Hy as [->|Hy]; [lia|].
      apply M. now right.
Qed.

Lemma Forall2_elem_of_l {A B : Type} (R : A -> B -> Prop) (l : list A)
    (k : list B) (x : A) :
  Forall2 R l k -> x ∈ l -> exists y, y ∈ k /\ R x y.
Proof.
  induction 1 as [|a b l k Rab _ IH]; intros Hx.
  - now apply elem_of_nil in Hx.
  - apply elem_of_cons in Hx as [->|Hx].
    + exists b. split; [left|exact Rab].
    + destruct (IH Hx) as (y & Hy & Ry). exists y. split; [now right|exact Ry].
Qed.

Lemma Forall2_elem_of_r {A B : Type} (R : A -> B -> Prop) (l : list A)
    (k : list B) (y : B) :
  Forall2 R l k -> y ∈ k -> exists x, x ∈ l /\ R x y.
Proof.
  induction 1 as [|a b l k Rab _ IH]; intros Hy.
  - now apply elem_of_nil in Hy.
  - apply elem_of_cons in Hy as [->|Hy].
    + exists a. split; [left|exact Rab].
    + destruct (IH Hy) as (x & Hx & Rx). exists x. split; [now right|exact Rx].
Qed.

(** X7.  [max(glob(...), key=os.path.getmtime)]: when the search found
    something and every match has an entry in the file system, the match
    that is chosen is one of them and none of them was modified later. *)
Theorem newest_is_most_recent (w : world) (found : list string) (rt : runtime) :
  found <> [] ->
  (forall q, q ∈ found -> is_Some (files w (clock rt) !! q)) ->
  exists p fp,
    newest w found rt = Ret p rt /\
    p ∈ found /\
    files w (clock rt) !! p = Some fp /\
    (forall q fq,
       q ∈ found -> files w (clock rt) !! q = Some fq ->
       (mtime fq <= mtime fp)%Z).
Proof.
  intros Ne All. unfold newest.
  set (g := fun q => pair q <$> (mtime <$> files w (clock rt) !! q)).
  assert (S : is_Some (mapM g found)).
  { apply mapM_is_Some, Forall_forall. intros q Hq.
    destruct (All q Hq) as [fq L]. unfold g. cbn. rewrite L. cbn. eauto. }
  destruct S as [k K]. rewrite K. apply mapM_Some in K.
  destruct k as [|x xs].
  { inversion K; subst. congruence. }
  destruct (py_max_greatest snd xs x) as [I M].
  destruct (Forall2_elem_of_r _ _ _ _ K I) as (p & Hp & Gp).
  unfold g in Gp. destruct (files w (clock rt) !! p) as [fp|] eqn:Lp;
    [|discriminate]. cbn in Gp. injection Gp as Gp.
  exists p, fp. rewrite <- Gp. cbn [fst]. repeat split; auto.
  intros q fq Hq Lq.
  destruct (Forall2_elem_of_l _ _ _ _ K Hq) as (y & Hy & Gq).
  unfold g in Gq. rewrite Lq in Gq. cbn in Gq. injection Gq as <-.
  specialize (M _ Hy). rewrite <- Gp in M. exact M.
Qed.

Lemma newest_is_most_recent_witness :
  newest Examples.with_log_old [Examples.ngs_0101; Examples.old_0101]
    Examples.rt0 = Ret Examples.old_0101 Examples.rt0.
Proof.
  destruct (newest_is_most_recent Examples.with_log_old
              [Examples.ngs_0101; Examples.old_0101] Examples.rt0)
    as (p & fp & N & _).
  - discriminate.
  - intros q Hq. apply elem_of_cons in Hq as [->|Hq]; [vm_compute; eauto|].
    apply list_elem_of_singleton in Hq as ->. vm_compute. eauto.
  - rewrite N. vm_compute in N. now injection N as <-.
Defined.

Section LiveConstruction.

Context `{OsPath}.
Variable w : world.

(** The search that [__init__] makes in live mode. *)
Let found (rt : runtime) : list string :=
  glob w (clock rt) (path_join (documents w) "SEGA\PHANTASYSTARONLINE2*\log*\*").

(** X8.  In live mode, once the newest match [p] of the search is known,
    [__init__] waits for the file [<type><date>_00.txt] in the directory of
    [p], one attempt per second, and returns an object that reads this file
    from its end, with the sentinel in the buffer, the log type and today's
    UTC date stored, and [__log_path] set to the directory above the
    directory of [p]; the file-not-found record is logged once if the file
    was not there at first. *)
Theorem init_by_type_follows_the_newest (retries n : nat) (target : string)
    (rt : runtime) (p : string) (fl : file) :
  let log_date := utc_date w (clock rt) in
  let file_name :=
    path_dirname p +:+ "\" +:+ target +:+ log_date +:+ "_00.txt" in
  newest w (found rt) rt = Ret p rt ->
  n <= retries ->
  (forall k, k < n -> files w (clock rt + k) !! file_name = None) ->
  files w (clock rt + n) !! file_name = Some fl ->
  __init__ w retries target false rt =
    Ret {| __is_path := false; __ba := sentinel;
           __f := Some {| name := file_name; pos := length (content fl) |};
           __log_path := Some (path_dirname (path_dirname p));
           __log_type := Some target; __log_date := Some log_date |}
        {| clock := clock rt + n;
           logged := logged rt ++ warning n (Some target) |}.
Proof.
  intros log_date file_name N Le A P. unfold __init__. cbn [negb].
  fold (found rt). rewrite N. cbn [bind]. fold log_date. fold file_name.
  rewrite (open_log_file_opens w file_name _ n retries rt fl); auto.
Qed.

(** X9.  In live mode [__init__] does not return while the file of the
    requested type is absent: after any number of attempts, one second
    apart, it is still waiting and has logged the file-not-found record
    once. *)
Theorem init_by_type_waits (retries : nat) (target : string) (rt : runtime)
    (p : string) :
  let file_name :=
    path_dirname p +:+ "\" +:+ target +:+ utc_date w (clock rt) +:+ "_00.txt" in
  newest w (found rt) rt = Ret p rt ->
  (forall k, k <= retries -> files w (clock rt + k) !! file_name = None) ->
  __init__ w retries target false rt =
    Spin {| clock := clock rt + S retries;
            logged := logged rt ++ [FileNotFoundLogged target] |}.
Proof.
  intros file_name N A. unfold __init__. cbn [negb].
  fold (found rt). rewrite N. cbn [bind]. fold file_name.
  now rewrite (open_log_file_spins w file_name _ retries rt target).
Qed.

End LiveConstruction.

Lemma init_by_type_follows_the_newest_witness :
  __init__ Examples.with_log_old 0 "ChatLog" false Examples.rt0 =
    Ret (Examples.tailing Examples.old_0101 1 sentinel) Examples.rt0.
Proof.
  etransitivity.
  - apply (init_by_type_follows_the_newest Examples.with_log_old 0 0 "ChatLog"
             Examples.rt0 Examples.old_0101 {| content := [x00]; mtime := 300 |});
      [vm_compute; reflexivity | lia | intros k Hk; lia | vm_compute; reflexivity].
  - vm_compute. reflexivity.
Defined.

Lemma init_by_type_waits_witness :
  __init__ Examples.with_log_old 3 "ActionLog" false Examples.rt0 =
    Spin {| clock := 4; logged := [FileNotFoundLogged "ActionLog"] |}.
Proof.
  etransitivity.
  - apply (init_by_type_waits Examples.with_log_old 3 "ActionLog" Examples.rt0
             Examples.old_0101); [vm_compute; reflexivity|].
    intros k Hk. vm_compute. reflexivity.
  - reflexivity.
Defined.

(** ** Ticks of the monitor *)

Lemma check_variant_returned (w : world) (retries : nat)
    (base_path ngs_path : string) (self self1 : NGSLogPrep) (rt rt1 : runtime) :
  check_variant w retries base_path ngs_path self rt = Ret self1 rt1 ->
  rt1 = rt /\ (self1 = self \/ exists p fl, self1 = opened p fl self).
Proof.
  unfold check_variant, getmtime, path_exists.
  destruct (files w (clock rt) !! base_path) as [base|] eqn:B;
    [|rewrite bool_decide_eq_false_2 by (now intros [? ?]);
      intros [= <- <-]; auto].
  destruct (files w (clock rt) !! ngs_path) as [ngs|] eqn:G;
    [|rewrite (bool_decide_eq_false_2 (is_Some None)) by (now intros [? ?]);
      rewrite andb_false_r; intros [= <- <-]; auto].
  rewrite !bool_decide_eq_true_2 by eauto. cbn [andb bind]. rewrite G.
  cbn [bind]. destruct (__f self) as [h|]; cbn [getattr bind]; [|discriminate].
  case_bool_decide; [|intros [= <- <-]; auto].
  set (last_path := fst _). intros O.
  assert (L : exists fl, files w (clock rt) !! last_path = Some fl).
  { subst last_path. cbn. destruct (mtime base <? mtime ngs)%Z; cbn; eauto. }
  destruct L as [fl L]. unfold __open_log_file in O.
  rewrite (open_loop_found w last_path self retries false rt fl L) in O.
  injection O as <- <-. eauto.
Qed.

(** Time does not go back while a file is awaited. *)
Lemma open_loop_clock (w : world) (retries : nat) (path : string) (flag : bool)
    (self self' : NGSLogPrep) (rt rt' : runtime) :
  open_loop w retries path flag self rt = Ret self' rt' ->
  clock rt <= clock rt'.
Proof.
  revert rt flag. induction retries as [|r IH]; intros rt flag;
    cbn [open_loop]; destruct (files w (clock rt) !! path).
  - intros [= _ <-]. lia.
  - destruct flag; cbn [negb bind]; [discriminate|].
    destruct (__log_type self); discriminate.
  - intros [= _ <-]. lia.
  - destruct flag; cbn [negb bind getattr].
    + intros O. apply IH in O. cbn in O. lia.
    + destruct (__log_type self); cbn [getattr bind]; [|discriminate].
      intros O. apply IH in O. cbn in O. lia.
Qed.

Section Ticks.

Context `{OsPath}.
Variable w : world.

Lemma candidates_opened (p : string) (fl : file) (self : NGSLogPrep) :
  candidates (opened p fl self) = candidates self.
Proof. reflexivity. Qed.

(** X11.  A tick at which nothing has changed leaves the object alone: when
    the date has not advanced and the variant check has no reason to switch
    (a candidate is missing, or the winner is the open file), the tick
    returns the object and the candidate paths as they were, a partial
    record in the buffer included, after its sleep of 15 seconds. *)
Theorem idle_tick_changes_nothing (retries : nat) (paths : string * string)
    (self : NGSLogPrep) (rt : runtime) (h : handle) (d : string) :
  __f self = Some h ->
  __log_date self = Some d ->
  String.ltb d (utc_date w (clock rt)) = false ->
  match files w (clock rt) !! paths.1, files w (clock rt) !! paths.2 with
  | Some base, Some ngs =>
      name h = if (mtime base <? mtime ngs)%Z then paths.2 else paths.1
  | _, _ => True
  end ->
  monitor_tick w retries paths self rt = Ret (self, paths) (sleep 15 rt).
Proof.
  intros F D Lt Idle. unfold monitor_tick.
  rewrite (check_variant_cases w retries _ _ self rt h F).
  assert (V : match files w (clock rt) !! paths.1,
                    files w (clock rt) !! paths.2 with
              | Some base, Some ngs =>
                  let '(last_path, fl) :=
                    if (mtime base <? mtime ngs)%Z then (paths.2, ngs)
                    else (paths.1, base) in
                  if bool_decide (last_path = name h) then Ret self rt
                  else Ret (opened last_path fl self) rt
              | _, _ => Ret self rt
              end = Ret self rt).
  { destruct (files w (clock rt) !! paths.1) as [base|]; [|reflexivity].
    destruct (files w (clock rt) !! paths.2) as [ngs|]; [|reflexivity].
    destruct (mtime base <? mtime ngs)%Z;
      now rewrite bool_decide_eq_true_2 by congruence. }
  rewrite V. cbn [bind]. unfold check_midnight. rewrite D. cbn [getattr bind].
  now rewrite Lt.
Qed.

(** X12.  What a tick keeps: when a tick returns and the candidate paths it
    started with were those of the stored date, the candidate paths it
    hands to the next tick are those of the date that is stored then; the
    log type, the installation directory and the mode are unchanged; the
    stored date is the same or a later one; and at least 15 seconds have
    passed. *)
Theorem tick_keeps_candidates_current (retries : nat)
    (paths paths' : string * string) (self self' : NGSLogPrep)
    (rt rt' : runtime) :
  monitor_tick w retries paths self rt = Ret (self', paths') rt' ->
  candidates self = Some paths ->
  candidates self' = Some paths' /\
  __log_path self' = __log_path self /\
  __log_type self' = __log_type self /\
  __is_path self' = __is_path self /\
  (__log_date self' = __log_date self \/
   exists d d', __log_date self = Some d /\ __log_date self' = Some d' /\
                String.ltb d d' = true) /\
  clock rt + 15 <= clock rt'.
Proof.
  unfold monitor_tick. intros T C.
  destruct (check_variant w retries paths.1 paths.2 self rt)
    as [self1 rt1|e rt1|rt1] eqn:V; cbn [bind] in T; try discriminate.
  apply check_variant_returned in V as [-> V].
  assert (K : candidates self1 = Some paths /\
              __log_path self1 = __log_path self /\
              __log_type self1 = __log_type self /\
              __is_path self1 = __is_path self /\
              __log_date self1 = __log_date self).
  { destruct V as [->|(p & fl & ->)]; now repeat split. }
  clear V. destruct K as (C1 & P1 & T1 & I1 & D1).
  rewrite <- P1, <- T1, <- I1, <- D1. clear C P1 T1 I1 D1 self.
  unfold check_midnight in T.
  destruct (__log_date self1) as [d|] eqn:D; cbn [getattr bind] in T;
    [|discriminate].
  destruct (String.ltb d (utc_date w (clock rt))) eqn:Lt.
  - cbn [__f __log_type set_log_date] in T.
    destruct (__f self1) as [h|]; cbn [getattr bind] in T; [|discriminate].
    destruct (__log_type self1) as [c|] eqn:Ty; cbn [getattr bind] in T;
      [|discriminate].
    destruct (__open_log_file w retries _ _ rt) as [self2 rt2|e rt2|rt2] eqn:O;
      cbn [bind] in T; try discriminate.
    assert (R : clock rt <= clock rt2) by (eapply open_loop_clock; exact O).
    apply open_loop_returned in O as [fl ->].
    cbn [__log_path opened set_ba set_f set_log_date] in T.
    destruct (__log_path self1) as [root|] eqn:Pa; cbn [getattr bind] in T;
      [|discriminate].
    injection T as <- <- <-.
    unfold candidates. cbn. rewrite Pa, Ty. repeat split; auto.
    + right. eauto.
    + lia.
  - injection T as <- <- <-. repeat split; auto.
Qed.

End Ticks.

Lemma idle_tick_changes_nothing_witness :
  monitor_tick Examples.with_log_old 0 (Examples.base_0101, Examples.ngs_0101)
    (Examples.tailing Examples.old_0101 1 [x00; x68]) Examples.rt0 =
    Ret (Examples.tailing Examples.old_0101 1 [x00; x68],
         (Examples.base_0101, Examples.ngs_0101))
        (sleep 15 Examples.rt0).
Proof.
  apply (idle_tick_changes_nothing Examples.with_log_old 0
           (Examples.base_0101, Examples.ngs_0101)
           (Examples.tailing Examples.old_0101 1 [x00; x68]) Examples.rt0
           {| name := Examples.old_0101; pos := 1 |} "20260101");
    [reflexivity | reflexivity | reflexivity | vm_compute; exact I].
Defined.

Lemma tick_keeps_candidates_current_witness :
  candidates
    (opened Examples.ngs_0102 {| content := [x00]; mtime := 301 |}
       (set_log_date "20260102"
          (Examples.tailing Examples.ngs_0101 1 [x00; x61])))
    = Some (Examples.base_0102, Examples.ngs_0102).
Proof.
  apply (tick_keeps_candidates_current Examples.after_midnight 0
           (Examples.base_0101, Examples.ngs_0101)
           (Examples.base_0102, Examples.ngs_0102)
           (Examples.tailing Examples.ngs_0101 1 [x00; x61])
           (opened Examples.ngs_0102 {| content := [x00]; mtime := 301 |}
              (set_log_date "20260102"
                 (Examples.tailing Examples.ngs_0101 1 [x00; x61])))
           Examples.rt0 {| clock := 15; logged := [] |});
    vm_compute; reflexivity.
Defined.

(** ** The demonstration loop *)

Lemma sleep_sleep (n m : nat) (rt : runtime) :
  sleep m (sleep n rt) = sleep (n + m) rt.
Proof. unfold sleep. cbn. f_equal. lia. Qed.

(** A later call picks up where an earlier one stopped. *)
Lemma get_lines_later (w : world) (self : NGSLogPrep) (rt : runtime)
    (h : handle) (n : nat) (fl1 fl2 : file) (more : list byte) :
  __f self = Some h ->
  files w (clock rt) !! name h = Some fl1 ->
  files w (clock rt + n) !! name h = Some fl2 ->
  content fl2 = content fl1 ++ more ->
  pos h <= length (content fl1) ->
  exists lines1 self1 records1 lines2 self2 rt2,
    get_lines w self rt =
      Ret (lines1, self1)
          {| clock := clock rt; logged := logged rt ++ records1 |} /\
    __f self1 = Some {| name := name h; pos := length (content fl1) |} /\
    get_lines w self1
      {| clock := clock rt + n; logged := logged rt ++ records1 |}
      = Ret (lines2, self2) rt2 /\
    get_lines w self (sleep n rt) = Ret (lines1 ++ lines2, self2) rt2.
Proof.
  intros F L1 L2 C Le.
  destruct (read_loop_extends (drop (pos h) (content fl1)) self)
    as (b1 & r1 & l1 & R1).
  set (n1 := length (drop (pos h) (content fl1))) in *.
  set (self1 := set_ba b1 (advanced n1 self)) in *.
  destruct (read_loop_extends more self1) as (b2 & r2 & l2 & R2).
  assert (N1 : pos h + n1 = length (content fl1))
    by (subst n1; rewrite length_drop; lia).
  assert (F1 : __f self1 = Some {| name := name h; pos := length (content fl1) |})
    by (rewrite <- N1; now apply advanced_f).
  exists l1, self1, r1, l2, (set_ba b2 (advanced (length more) self1)),
    {| clock := clock rt + n; logged := (logged rt ++ r1) ++ r2 |}.
  split; [|split; [exact F1|split]].
  - rewrite (get_lines_pending w self rt h F). unfold pending. rewrite L1.
    now rewrite R1.
  - rewrite (get_lines_pending w self1 _ _ F1). unfold pending.
    cbn [clock logged name pos]. rewrite L2, C, drop_app_length.
    now rewrite R2.
  - rewrite (get_lines_pending w self _ h F). unfold pending, sleep.
    cbn [clock logged]. rewrite L2, C, drop_app_le by exact Le.
    rewrite read_loop_app, R1. cbn [clock logged]. now rewrite R2.
Qed.

Lemma main_loop_prints (w : world) (path : string) (start : nat) :
  (forall t n, start <= t ->
     exists fl fl' more,
       files w t !! path = Some fl /\ files w (t + n) !! path = Some fl' /\
       content fl' = content fl ++ more) ->
  forall (rounds : nat) (log : NGSLogPrep) (rt : runtime)
         (printed : list pystr) (cursor : nat) (fl : file),
    start <= clock rt ->
    __f log = Some {| name := path; pos := cursor |} ->
    files w (clock rt) !! path = Some fl ->
    cursor <= length (content fl) ->
    exists lines log' rt',
      get_lines w log (sleep (S rounds) rt) = Ret (lines, log') rt' /\
      main_loop w (S rounds) log rt printed = (printed ++ lines, Spin rt').
Proof.
  intros Grows. induction rounds as [|rounds IH];
    intros log rt printed cursor fl St F L Le.
  - destruct (get_lines_returns w log (sleep 1 rt) _ F) as (ls & log' & rt' & G).
    exists ls, log', rt'. split; [exact G|]. cbn [main_loop]. now rewrite G.
  - destruct (Grows (clock rt) 1 St) as (fl0 & fl1 & m1 & L0 & L1 & C1).
    rewrite L in L0. injection L0 as <-.
    destruct (Grows (clock rt + 1) (S rounds) ltac:(lia))
      as (fl1' & fl2 & m2 & L1' & L2 & C2).
    rewrite L1 in L1'. injection L1' as <-.
    destruct (get_lines_later w log (sleep 1 rt)
                {| name := path; pos := cursor |} (S rounds) fl1 fl2 m2)
      as (ls1 & log1 & r1 & ls2 & log2 & rt2 & G1 & F1 & G2 & G12);
      auto; [rewrite C1, length_app; cbn; lia|].
    cbn [sleep clock logged name] in G1, G2, F1.
    destruct (IH log1 {| clock := clock rt + 1; logged := logged rt ++ r1 |}
                (printed ++ ls1) (length (content fl1)) fl1)
      as (ls2' & log2' & rt2' & G2' & M); cbn [clock]; auto; [lia|].
    unfold sleep in G2'. cbn [clock logged] in G2'. rewrite G2 in G2'.
    injection G2' as <- <- <-.
    exists (ls1 ++ ls2), log2, rt2. split.
    + rewrite sleep_sleep in G12. exact G12.
    + change (main_loop w (S (S rounds)) log rt printed)
        with (match get_lines w log (sleep 1 rt) with
              | Ret (log_lines, log) rt =>
                  main_loop w (S rounds) log rt (printed ++ log_lines)
              | Raise e rt => (printed, Raise e rt)
              | Spin rt => (printed, Spin rt)
              end).
      rewrite G1, M. now rewrite app_assoc.
Qed.

(** X13.  The loop under [__main__] prints every line once: when the file
    under the fixed path exists and is only ever appended to, then after any
    positive number of rounds, one second apart, what has been printed is
    exactly what a single call of [get_lines] at that time would return, in
    the same order, and the loop is still running. *)
Theorem main_prints_each_line_once (w : world) (rounds retries : nat)
    (rt : runtime) :
  (forall t n, clock rt <= t ->
     exists fl fl' more,
       files w t !! main_target = Some fl /\
       files w (t + n) !! main_target = Some fl' /\
       content fl' = content fl ++ more) ->
  exists log lines log' rt',
    __init__ w retries main_target true rt = Ret log rt /\
    get_lines w log (sleep (S rounds) rt) = Ret (lines, log') rt' /\
    main w (S rounds) retries rt = (lines, Spin rt').
Proof.
  intros Grows.
  destruct (Grows (clock rt) 0 (le_n _)) as (fl & _ & _ & L & _ & _).
  pose proof (init_by_path_found w retries main_target rt fl L) as I.
  set (log := opened main_target fl _) in I.
  destruct (main_loop_prints w main_target (clock rt) Grows rounds log rt []
              (Nat.min 2 (length (content fl))) fl)
    as (lines & log' & rt' & G & M); auto; [lia|].
  exists log, lines, log', rt'. split; [exact I|]. split; [exact G|].
  unfold main. now rewrite I.
Qed.

Lemma main_prints_each_line_once_witness :
  exists log lines log' rt',
    __init__ Examples.main_world 0 main_target true Examples.rt0
      = Ret log Examples.rt0 /\
    get_lines Examples.main_world log (sleep 3 Examples.rt0)
      = Ret (lines, log') rt' /\
    main Examples.main_world 3 0 Examples.rt0 = (lines, Spin rt').
Proof.
  apply (main_prints_each_line_once Examples.main_world 2 0 Examples.rt0).
  intros t n _.
  destruct (t <? 2)%nat eqn:T; destruct (t + n <? 2)%nat eqn:T'.
  - exists {| content := [xff; xfe; x68; x00; x69]; mtime := 1 |},
      {| content := [xff; xfe; x68; x00; x69]; mtime := 1 |}, [].
    unfold Examples.main_world. cbn [files]. rewrite T, T'.
    now rewrite !lookup_singleton_eq.
  - exists {| content := [xff; xfe; x68; x00; x69]; mtime := 1 |},
      {| content := [xff; xfe; x68; x00; x69; x00; x0d; x00; x0a; x00];
         mtime := 2 |}, [x00; x0d; x00; x0a; x00].
    unfold Examples.main_world. cbn [files]. rewrite T, T'.
    now rewrite !lookup_singleton_eq.
  - apply Nat.ltb_ge in T. apply Nat.ltb_lt in T'. lia.
  - exists {| content := [xff; xfe; x68; x00; x69; x00; x0d; x00; x0a; x00];
              mtime := 2 |},
      {| content := [xff; xfe; x68; x00; x69; x00; x0d; x00; x0a; x00];
         mtime := 2 |}, [].
    unfold Examples.main_world. cbn [files]. rewrite T, T'.
    now rewrite !lookup_singleton_eq.
Defined.

(** ** Waiting at midnight and opening a live file *)

(** X14.  After midnight the monitor waits in one directory only: when the
    date has advanced and the file of the new date is absent from the
    directory of the file that is open after the variant check, the tick
    does not end, whatever exists in the other variant directory; after any
    number of attempts, one second apart, it is still waiting and has logged
    the file-not-found record once. *)
Theorem midnight_waits_beside_the_open_file `{OsPath} (w : world)
    (retries : nat) (paths : string * string) (self : NGSLogPrep) (rt : runtime)
    (h : handle) (c d : string) :
  __f self = Some h -> __log_type self = Some c -> __log_date self = Some d ->
  String.ltb d (utc_date w (clock rt)) = true ->
  exists self1 h1,
    check_variant w retries paths.1 paths.2 self rt = Ret self1 rt /\
    __f self1 = Some h1 /\
    let today := utc_date w (clock rt) in
    let target := path_join (path_dirname (name h1)) (c +:+ today +:+ "_00.txt") in
    ((forall k, k <= retries -> files w (clock rt + k) !! target = None) ->
     monitor_tick w retries paths self rt =
       Spin {| clock := clock rt + S retries;
               logged := logged rt ++ [FileNotFoundLogged c] |}).
Proof.
  intros F T D Lt.
  destruct (check_variant_returns w retries paths.1 paths.2 self rt h F)
    as (self1 & h1 & V & F1 & T1 & D1 & R1).
  exists self1, h1. split; [exact V|]. split; [exact F1|].
  intros today target A. unfold monitor_tick. rewrite V. cbn [bind].
  unfold check_midnight. rewrite D1, D. cbn [getattr bind].
  rewrite Lt. cbn [__f __log_type set_log_date]. rewrite F1, T1, T.
  cbn [getattr bind]. fold today. fold target.
  rewrite (open_log_file_spins w target _ retries rt c);
    [reflexivity | cbn; congruence | exact A].
Qed.

Lemma midnight_waits_beside_the_open_file_witness :
  monitor_tick Examples.new_day_in_base 5
    (Examples.base_0101, Examples.ngs_0101)
    (Examples.tailing Examples.ngs_0101 1 []) Examples.rt0 =
    Spin {| clock := 6; logged := [FileNotFoundLogged "ChatLog"] |}.
Proof.
  destruct (midnight_waits_beside_the_open_file Examples.new_day_in_base 5
              (Examples.base_0101, Examples.ngs_0101)
              (Examples.tailing Examples.ngs_0101 1 []) Examples.rt0
              {| name := Examples.ngs_0101; pos := 1 |} "ChatLog" "20260101"
              eq_refl eq_refl eq_refl eq_refl)
    as (self1 & h1 & V & F1 & M).
  vm_compute in V. injection V as <-. vm_compute in F1. injection F1 as <-.
  apply M. intros k Hk. vm_compute. reflexivity.
Defined.

(** X15.  A live object reads only what is written after the open: when
    [__open_log_file] has found the file, after [n] failed attempts, a call
    of [get_lines] at that moment returns no line and leaves the object as
    the open left it, whatever the file holds already. *)
Theorem live_open_skips_what_is_there (w : world) (retries n : nat)
    (path : string) (self : NGSLogPrep) (rt : runtime) (c : string) (fl : file) :
  __is_path self = false ->
  __log_type self = Some c ->
  n <= retries ->
  (forall k, k < n -> files w (clock rt + k) !! path = None) ->
  files w (clock rt + n) !! path = Some fl ->
  (let! (self', rt') := __open_log_file w retries path self rt in
   get_lines w self' rt') =
    Ret ([], opened path fl self)
        {| clock := clock rt + n; logged := logged rt ++ warning n (Some c) |}.
Proof.
  intros I T Le A P.
  rewrite (open_log_file_opens w path self n retries rt fl); auto.
  cbn [bind]. rewrite T.
  assert (F : __f (opened path fl self)
              = Some {| name := path; pos := length (content fl) |}).
  { unfold opened. cbn. now rewrite I. }
  rewrite (get_lines_pending w _ _ _ F). unfold pending.
  cbn [clock name pos]. rewrite P, drop_all. reflexivity.
Qed.

Lemma live_open_skips_what_is_there_witness :
  (let! (self', rt') :=
     __open_log_file
       (Examples.appearing 2 Examples.chat_log
          {| content := Examples.hi_bye_le; mtime := 7 |})
       5 Examples.chat_log (Examples.tailing "old.txt" 4 [x00; x61])
       Examples.rt0 in
   get_lines
     (Examples.appearing 2 Examples.chat_log
        {| content := Examples.hi_bye_le; mtime := 7 |}) self' rt') =
    Ret ([], Examples.tailing Examples.chat_log 20 sentinel)
        {| clock := 2; logged := [FileNotFoundLogged "ChatLog"] |}.
Proof.
  apply (live_open_skips_what_is_there
           (Examples.appearing 2 Examples.chat_log
              {| content := Examples.hi_bye_le; mtime := 7 |})
           5 2 Examples.chat_log (Examples.tailing "old.txt" 4 [x00; x61])
           Examples.rt0 "ChatLog" {| content := Examples.hi_bye_le; mtime := 7 |});
    [reflexivity | reflexivity | lia | | reflexivity].
  intros k Hk. assert (k = 0 \/ k = 1) as [-> | ->] by lia; reflexivity.
Defined.
